(** * UIAutodev Bridge overlay panel: a shallow embedding and its properties

    The development embeds the floating control panel script (the panel
    script of the repository, an IIFE that injects the "UIAutodev Bridge"
    panel, and the console script [weditor_autosend.js]) and proves what the
    specification says about it.

    Conventions of the embedding.
    - A JavaScript string is a [string] of bytes.  [trim], [parseInt] and
      [toLowerCase] treat the ASCII range the way JavaScript does; Unicode
      white space and case mappings outside ASCII are outside the model.
    - A JavaScript number is an exact integer [Z]; [parseInt] returns
      [None] for NaN.  The model is exact below 2^53.
    - A JavaScript object is an association list in insertion order.
    - Text that is JSON (the persisted blob, a request body, a response body)
      is represented by the value it parses to.
    - An [async] function is split at its [await]: the part that runs
      synchronously up to [fetch], and the part that resumes with the
      outcome of the request. *)

From Stdlib Require Import ZArith List String Ascii Bool Lia DecimalString.
From Stdlib Require Import DecimalPos.
Import ListNotations.
Open Scope string_scope.
Open Scope Z_scope.
Set Warnings "-register-all".

(* ================================================================== *)
(** * JavaScript strings *)

Module JsString.

Definition is_digit (c : ascii) : bool :=
  let n := nat_of_ascii c in (48 <=? n)%nat && (n <=? 57)%nat.

Definition digit_val (c : ascii) : Z := Z.of_nat (nat_of_ascii c) - 48.

(** White space of the ASCII range: TAB, LF, VT, FF, CR, SPACE. *)
Definition is_ws (c : ascii) : bool :=
  let n := nat_of_ascii c in
  ((9 <=? n)%nat && (n <=? 13)%nat) || (n =? 32)%nat.

Definition lower_char (c : ascii) : ascii :=
  let n := nat_of_ascii c in
  if (65 <=? n)%nat && (n <=? 90)%nat then ascii_of_nat (n + 32) else c.

Fixpoint toLowerCase (s : string) : string :=
  match s with
  | EmptyString => EmptyString
  | String c s' => String (lower_char c) (toLowerCase s')
  end.

Fixpoint trimStart (s : string) : string :=
  match s with
  | EmptyString => EmptyString
  | String c s' => if is_ws c then trimStart s' else s
  end.

Fixpoint trimEnd (s : string) : string :=
  match s with
  | EmptyString => EmptyString
  | String c s' =>
      match trimEnd s' with
      | EmptyString => if is_ws c then EmptyString else String c EmptyString
      | t => String c t
      end
  end.

Definition trim (s : string) : string := trimEnd (trimStart s).

Fixpoint startsWith (p s : string) : bool :=
  match p, s with
  | EmptyString, _ => true
  | String a p', String b s' => Ascii.eqb a b && startsWith p' s'
  | String _ _, EmptyString => false
  end.

Fixpoint endsWith (suf s : string) : bool :=
  String.eqb s suf ||
  match s with
  | EmptyString => false
  | String _ s' => endsWith suf s'
  end.

Fixpoint includes (sub s : string) : bool :=
  startsWith sub s ||
  match s with
  | EmptyString => false
  | String _ s' => includes sub s'
  end.

Fixpoint drop (n : nat) (s : string) : string :=
  match n, s with
  | O, _ => s
  | S n', String _ s' => drop n' s'
  | S _, EmptyString => EmptyString
  end.

(** [s.replace(pat, rep)] with a string pattern: the first occurrence
    only.  The replacement holds no [$] sequence where the panel uses it. *)
Fixpoint replace (pat rep s : string) : string :=
  if startsWith pat s then rep ++ drop (String.length pat) s
  else match s with
       | EmptyString => EmptyString
       | String c s' => String c (replace pat rep s')
       end.

(** The digits that [parseInt] reads, most significant first; [acc] is
    [None] until a digit has been seen. *)
Fixpoint parse_digits (acc : option Z) (s : string) : option Z :=
  match s with
  | EmptyString => acc
  | String c s' =>
      if is_digit c
      then parse_digits
             (Some (10 * match acc with Some n => n | None => 0 end
                    + digit_val c)) s'
      else acc
  end.

(** [parseInt(s, 10)]: leading white space, an optional sign, the longest
    run of digits; [None] is NaN. *)
Definition parseInt (s : string) : option Z :=
  match trimStart s with
  | String "-" r => option_map Z.opp (parse_digits None r)
  | String "+" r => parse_digits None r
  | r => parse_digits None r
  end.

(** [s || d] on strings: the empty string is falsy. *)
Definition str_or (s d : string) : string :=
  match s with EmptyString => d | _ => s end.

(** [n || d] on the result of [parseInt]: NaN and 0 are falsy. *)
Definition num_or (n : option Z) (d : Z) : Z :=
  match n with
  | Some k => if k =? 0 then d else k
  | None => d
  end.

(** [String(n)] for an integer. *)
Definition of_Z (n : Z) : string := NilZero.string_of_int (Z.to_int n).

End JsString.
Import JsString.

(* ================================================================== *)
(** * The regular expressions the scripts use *)

Module Regex.

Inductive atom : Type :=
| Lit (c : ascii)      (* an escaped or plain character *)
| Digit.               (* \d *)

Inductive item : Type :=
| One (a : atom)       (* a  *)
| Plus (a : atom).     (* a+ , greedy *)

Definition regex : Type := list item.

Definition atom_ok (a : atom) (c : ascii) : bool :=
  match a with
  | Lit d => Ascii.eqb c d
  | Digit => is_digit c
  end.

(** A backtracking match anchored at the start of [s]; the result is the
    text matched.  A greedy [a+] first tries to take one more character
    and falls back to the rest of the pattern. *)
Fixpoint match_here (r : regex) (s : string) {struct s} : option string :=
  match r with
  | [] => Some EmptyString
  | One a :: r' =>
      match s with
      | EmptyString => None
      | String c s' =>
          if atom_ok a c then option_map (String c) (match_here r' s')
          else None
      end
  | Plus a :: r' =>
      match s with
      | EmptyString => None
      | String c s' =>
          if atom_ok a c then
            match match_here r s' with
            | Some m => Some (String c m)
            | None => option_map (String c) (match_here r' s')
            end
          else None
      end
  end.

(** [s.match(r)] without the [g] flag: the leftmost match, [m[0]]. *)
Fixpoint exec (r : regex) (s : string) : option string :=
  match match_here r s with
  | Some m => Some m
  | None =>
      match s with
      | EmptyString => None
      | String _ s' => exec r s'
      end
  end.

(** [r.test(s)]. *)
Definition test (r : regex) (s : string) : bool :=
  match exec r s with Some _ => true | None => false end.

(** The words of a pattern. *)
Inductive lang : regex -> string -> Prop :=
| lang_nil : lang [] EmptyString
| lang_one a c r m :
    atom_ok a c = true -> lang r m -> lang (One a :: r) (String c m)
| lang_plus_last a c r m :
    atom_ok a c = true -> lang r m -> lang (Plus a :: r) (String c m)
| lang_plus_more a c r m :
    atom_ok a c = true -> lang (Plus a :: r) m ->
    lang (Plus a :: r) (String c m).

End Regex.
Import Regex.

(** [const BOUNDS_RE = /\[(\d+),(\d+)\]\[(\d+),(\d+)\]/;] *)
Definition BOUNDS_RE : regex :=
  [ One (Lit "["); Plus Digit; One (Lit ","); Plus Digit; One (Lit "]");
    One (Lit "["); Plus Digit; One (Lit ","); Plus Digit; One (Lit "]") ].

(* ================================================================== *)
(** * JavaScript values *)

Module Js.

Inductive JsVal : Type :=
| JUndefined
| JNull
| JBool (b : bool)
| JNum (n : Z)
| JStr (s : string)
| JArr (xs : list JsVal)
| JObj (fields : list (string * JsVal)).

Definition Obj : Type := list (string * JsVal).

Definition truthy (v : JsVal) : bool :=
  match v with
  | JUndefined | JNull => false
  | JBool b => b
  | JNum n => negb (n =? 0)
  | JStr s => negb (String.eqb s "")
  | JArr _ | JObj _ => true
  end.

(** [a || b] and [a && b] on values. *)
Definition js_or (a b : JsVal) : JsVal := if truthy a then a else b.
Definition js_and (a b : JsVal) : JsVal := if truthy a then b else a.

Fixpoint lookup (k : string) (o : Obj) : option JsVal :=
  match o with
  | [] => None
  | (k', v) :: o' => if String.eqb k k' then Some v else lookup k o'
  end.

(** [v.k] for a property name that no prototype defines: the own property
    of an object, [undefined] on any other value.  The callers guard the
    reads on [null] and [undefined], which would throw. *)
Definition get (v : JsVal) (k : string) : JsVal :=
  match v with
  | JObj o => match lookup k o with Some x => x | None => JUndefined end
  | _ => JUndefined
  end.

(** [v?.k] *)
Definition get_opt (v : JsVal) (k : string) : JsVal :=
  match v with
  | JUndefined | JNull => JUndefined
  | _ => get v k
  end.

(** [o.k = v]: an existing key keeps its place, a new one goes last. *)
Fixpoint obj_set (k : string) (v : JsVal) (o : Obj) : Obj :=
  match o with
  | [] => [(k, v)]
  | (k', v') :: o' =>
      if String.eqb k k' then (k', v) :: o' else (k', v') :: obj_set k v o'
  end.

Fixpoint join (sep : string) (l : list string) : string :=
  match l with
  | [] => ""
  | [x] => x
  | x :: l' => x ++ sep ++ join sep l'
  end.

(** The string a template literal or [String(v)] gives. *)
Fixpoint to_string (v : JsVal) : string :=
  match v with
  | JUndefined => "undefined"
  | JNull => "null"
  | JBool true => "true"
  | JBool false => "false"
  | JNum n => of_Z n
  | JStr s => s
  | JArr xs =>
      join ","
        (map (fun x => match x with
                       | JUndefined | JNull => ""
                       | _ => to_string x
                       end) xs)
  | JObj _ => "[object Object]"
  end.

Fixpoint chars_from (i : nat) (s : string) : Obj :=
  match s with
  | EmptyString => []
  | String c s' =>
      (of_Z (Z.of_nat i), JStr (String c EmptyString)) :: chars_from (S i) s'
  end.

Fixpoint items_from (i : nat) (xs : list JsVal) : Obj :=
  match xs with
  | [] => []
  | x :: xs' => (of_Z (Z.of_nat i), x) :: items_from (S i) xs'
  end.

(** The own enumerable properties [Object.assign] copies from a source. *)
Definition own_props (v : JsVal) : Obj :=
  match v with
  | JObj o => o
  | JArr xs => items_from 0 xs
  | JStr s => chars_from 0 s
  | _ => []
  end.

(** [Object.assign(target, source)] *)
Definition assign (target : Obj) (source : JsVal) : Obj :=
  fold_left (fun o kv => obj_set (fst kv) (snd kv) o) (own_props source) target.

End Js.
Import Js.

(* ================================================================== *)
(** * The page: elements, and the queries the panel runs on them *)

Module Dom.

(** An element: its tag in lower case, its class list, the names of its
    attributes, its element children. *)
Inductive Element : Type :=
| Elem (tag : string) (classes : list string) (attrs : list string)
       (children : list Element).

(** A node is named by the child indices that lead to it from the root. *)
Definition path : Type := list nat.

Definition tag_of (e : Element) : string :=
  match e with Elem t _ _ _ => t end.
Definition classes_of (e : Element) : list string :=
  match e with Elem _ c _ _ => c end.
Definition attrs_of (e : Element) : list string :=
  match e with Elem _ _ a _ => a end.
Definition children_of (e : Element) : list Element :=
  match e with Elem _ _ _ k => k end.

Definition has_class (c : string) (e : Element) : bool :=
  existsb (String.eqb c) (classes_of e).
Definition has_attr (a : string) (e : Element) : bool :=
  existsb (String.eqb a) (attrs_of e).
Definition is_tag (t : string) (e : Element) : bool :=
  String.eqb (tag_of e) t.

Fixpoint path_eqb (p q : path) : bool :=
  match p, q with
  | [], [] => true
  | i :: p', j :: q' => Nat.eqb i j && path_eqb p' q'
  | _, _ => false
  end.

(** The element a path names, if any. *)
Fixpoint node_at (e : Element) (p : path) : option Element :=
  match p with
  | [] => Some e
  | i :: p' =>
      match nth_error (children_of e) i with
      | Some k => node_at k p'
      | None => None
      end
  end.

(** [a.contains(b)]: [b] is [a] or a descendant of [a]. *)
Fixpoint contains (a b : path) : bool :=
  match a, b with
  | [], _ => true
  | i :: a', j :: b' => Nat.eqb i j && contains a' b'
  | _ :: _, [] => false
  end.

(** The elements from the root down to the node at [p], nearest last, each
    with its path; [None] when [p] names no node. *)
Fixpoint chain (e : Element) (here p : path) : option (list (path * Element)) :=
  match p with
  | [] => Some [(here, e)]
  | i :: p' =>
      match nth_error (children_of e) i with
      | Some k =>
          option_map (cons (here, e)) (chain k (here ++ [i])%list p')
      | None => None
      end
  end.

Fixpoint last_match (sel : Element -> bool) (l : list (path * Element))
  : option path :=
  match l with
  | [] => None
  | (p, e) :: l' =>
      match last_match sel l' with
      | Some q => Some q
      | None => if sel e then Some p else None
      end
  end.

(** [t.closest(sel)] for a selector on one element: the nearest inclusive
    ancestor that matches. *)
Definition closest (sel : Element -> bool) (root : Element) (t : path)
  : option path :=
  match chain root [] t with
  | Some l => last_match sel l
  | None => None
  end.

(** [document.querySelector]: the first element in document order that
    the selector takes; a selector sees the element and its ancestors,
    nearest first. *)
Fixpoint find_first (sel : list Element -> Element -> bool)
         (anc : list Element) (here : path) (e : Element) : option path :=
  if sel anc e then Some here
  else
    (fix go (i : nat) (ks : list Element) : option path :=
       match ks with
       | [] => None
       | k :: ks' =>
           match find_first sel (e :: anc) (here ++ [i])%list k with
           | Some p => Some p
           | None => go (S i) ks'
           end
       end) 0%nat (children_of e).

(** The loop of [find_first] over the children, by itself. *)
Fixpoint find_in_children (sel : list Element -> Element -> bool)
         (anc : list Element) (here : path) (i : nat) (ks : list Element)
  : option path :=
  match ks with
  | [] => None
  | k :: ks' =>
      match find_first sel anc (here ++ [i])%list k with
      | Some p => Some p
      | None => find_in_children sel anc here (S i) ks'
      end
  end.

Definition querySelector (sel : list Element -> Element -> bool)
           (root : Element) : option path :=
  find_first sel [] [] root.

(** [button .p-button-icon.pi.pi-refresh] *)
Definition sel_refresh_icon (anc : list Element) (e : Element) : bool :=
  has_class "p-button-icon" e && has_class "pi" e && has_class "pi-refresh" e
  && existsb (is_tag "button") anc.

(** [.pi.pi-refresh, [class*="pi-refresh"]]: the substring [pi-refresh]
    holds no blank, so it lies in the class attribute iff it lies in one
    of the classes. *)
Definition sel_refresh_any (anc : list Element) (e : Element) : bool :=
  (has_class "pi" e && has_class "pi-refresh" e)
  || existsb (includes "pi-refresh") (classes_of e).

(** [findRefreshButton()], the same in both scripts. *)
Definition findRefreshButton (root : Element) : option path :=
  match querySelector sel_refresh_icon root with
  | Some icon => closest (is_tag "button") root icon
  | None =>
      match querySelector sel_refresh_any root with
      | Some any => closest (is_tag "button") root any
      | None => None
      end
  end.

End Dom.
Import Dom.

(* ================================================================== *)
(** * The panel script *)

Module Bridge.

Definition ENDPOINT_DEFAULT : string :=
  "http://127.0.0.1:8001/bridge/capture_tap".

Definition CFG_KEY : string := "UIA_BRIDGE_CFG".

(** The fields of the panel the script reads and writes: the [value] of
    each input and select, the [checked] flag of [#__auto], the text of
    [#__status], and whether the capture-timing inputs and their labels
    are displayed ([style.display] empty) or hidden ([none]). *)
Record Panel : Type := mkPanel {
  ep : string;
  act : string;
  dur : string;
  bd : string;
  auto_checked : bool;
  text : string;
  dx : string;
  dy : string;
  dir : string;
  dist : string;
  status : string;
  rt : string;
  ri : string;
  xpsel : string;
  wait : string;
  midDelay : string;
  capMode : string;
  midDelayLabel_shown : bool;
  midDelay_shown : bool;
  waitLabel_shown : bool;
  wait_shown : bool
}.

(** What [localStorage] holds under [CFG_KEY]. *)
Inductive Blob : Type :=
| NoItem                (* no item, or the empty string: read as '{}' *)
| BadText               (* text that [JSON.parse] rejects *)
| Parsed (v : JsVal).   (* text that parses to [v] *)

Record Request : Type := mkRequest {
  url : string;
  method : string;
  headers : list (string * string);
  body : option JsVal   (* the value [JSON.stringify] was given *)
}.

(** How a [fetch] ends: the promise rejects with an error (shown as
    [err]), or a response arrives with its status and, when its text is
    JSON, the value it parses to. *)
Inductive FetchResult : Type :=
| Rejected (err : string)
| Responded (code : Z) (json : option JsVal).

(** The state of the script, with what it has done so far: the requests
    handed to [fetch], and the calls of [scheduleRefreshClicks] with
    their [times] and [delay]. *)
Record World : Type := mkWorld {
  panel : Panel;
  REFRESH_TIMES : Z;
  REFRESH_INTERVAL : Z;
  storage : Blob;
  fetches : list Request;
  refreshes : list (Z * Z)
}.

(** What the script reads from the page it is injected in. *)
Record Host : Type := mkHost {
  dom : Element;                 (* the document *)
  panelPath : path;              (* where the panel sits in it *)
  window_selectedNode : JsVal;   (* window._selectedNode *)
  window_store : JsVal;          (* window.store *)
  candidateTexts : list string;  (* innerText of each candidate box,
                                    in document order *)
  new_URL : string -> string -> string + string
                                 (* new URL(rel, base).toString(), or the
                                    error it throws *)
}.

Record ClickEvent : Type := mkClick {
  target : option path;          (* e.target *)
  isTrusted : bool
}.

(** ** Updates of the state *)

Definition with_panel (f : Panel -> Panel) (w : World) : World :=
  mkWorld (f (panel w)) (REFRESH_TIMES w) (REFRESH_INTERVAL w) (storage w)
          (fetches w) (refreshes w).

Definition panel_status (s : string) (p : Panel) : Panel :=
  mkPanel (ep p) (act p) (dur p) (bd p) (auto_checked p) (text p) (dx p)
          (dy p) (dir p) (dist p) s (rt p) (ri p) (xpsel p) (wait p)
          (midDelay p) (capMode p) (midDelayLabel_shown p) (midDelay_shown p)
          (waitLabel_shown p) (wait_shown p).

Definition panel_bd (s : string) (p : Panel) : Panel :=
  mkPanel (ep p) (act p) (dur p) s (auto_checked p) (text p) (dx p)
          (dy p) (dir p) (dist p) (status p) (rt p) (ri p) (xpsel p) (wait p)
          (midDelay p) (capMode p) (midDelayLabel_shown p) (midDelay_shown p)
          (waitLabel_shown p) (wait_shown p).

Definition panel_auto (b : bool) (p : Panel) : Panel :=
  mkPanel (ep p) (act p) (dur p) (bd p) b (text p) (dx p)
          (dy p) (dir p) (dist p) (status p) (rt p) (ri p) (xpsel p) (wait p)
          (midDelay p) (capMode p) (midDelayLabel_shown p) (midDelay_shown p)
          (waitLabel_shown p) (wait_shown p).

Definition panel_xpsel (s : string) (p : Panel) : Panel :=
  mkPanel (ep p) (act p) (dur p) (bd p) (auto_checked p) (text p) (dx p)
          (dy p) (dir p) (dist p) (status p) (rt p) (ri p) s (wait p)
          (midDelay p) (capMode p) (midDelayLabel_shown p) (midDelay_shown p)
          (waitLabel_shown p) (wait_shown p).

Definition panel_wait (s : string) (p : Panel) : Panel :=
  mkPanel (ep p) (act p) (dur p) (bd p) (auto_checked p) (text p) (dx p)
          (dy p) (dir p) (dist p) (status p) (rt p) (ri p) (xpsel p) s
          (midDelay p) (capMode p) (midDelayLabel_shown p) (midDelay_shown p)
          (waitLabel_shown p) (wait_shown p).

Definition panel_midDelay (s : string) (p : Panel) : Panel :=
  mkPanel (ep p) (act p) (dur p) (bd p) (auto_checked p) (text p) (dx p)
          (dy p) (dir p) (dist p) (status p) (rt p) (ri p) (xpsel p) (wait p)
          s (capMode p) (midDelayLabel_shown p) (midDelay_shown p)
          (waitLabel_shown p) (wait_shown p).

Definition panel_capMode (s : string) (p : Panel) : Panel :=
  mkPanel (ep p) (act p) (dur p) (bd p) (auto_checked p) (text p) (dx p)
          (dy p) (dir p) (dist p) (status p) (rt p) (ri p) (xpsel p) (wait p)
          (midDelay p) s (midDelayLabel_shown p) (midDelay_shown p)
          (waitLabel_shown p) (wait_shown p).

Definition panel_capture_display (mid_shown wait_is_shown : bool) (p : Panel)
  : Panel :=
  mkPanel (ep p) (act p) (dur p) (bd p) (auto_checked p) (text p) (dx p)
          (dy p) (dir p) (dist p) (status p) (rt p) (ri p) (xpsel p) (wait p)
          (midDelay p) (capMode p) mid_shown mid_shown
          wait_is_shown wait_is_shown.

Definition set_status (s : string) : World -> World :=
  with_panel (panel_status s).

Definition set_storage (b : Blob) (w : World) : World :=
  mkWorld (panel w) (REFRESH_TIMES w) (REFRESH_INTERVAL w) b
          (fetches w) (refreshes w).

Definition set_refresh_params (t i : Z) (w : World) : World :=
  mkWorld (panel w) t i (storage w) (fetches w) (refreshes w).

(** [fetch(...)] is handed a request. *)
Definition do_fetch (r : Request) (w : World) : World :=
  mkWorld (panel w) (REFRESH_TIMES w) (REFRESH_INTERVAL w) (storage w)
          (fetches w ++ [r])%list (refreshes w).

(** [scheduleRefreshClicks()] with its default arguments, read when it is
    called. *)
Definition call_scheduleRefreshClicks (w : World) : World :=
  mkWorld (panel w) (REFRESH_TIMES w) (REFRESH_INTERVAL w) (storage w)
          (fetches w)
          (refreshes w ++ [(REFRESH_TIMES w, REFRESH_INTERVAL w)])%list.

(** Assigning the [value] of a [select]: a value that is no option leaves
    nothing selected, and the value reads as the empty string. *)
Definition select_assign (options : list string) (v : string) : string :=
  if existsb (String.eqb v) options then v else "".

Definition capMode_options : list string := ["mid"; "post"].

(** ** The click filter *)

(** [shouldIgnoreClick(e)]: the panel, then the refresh button and what it
    holds, then the regions the page marks. *)
Definition shouldIgnoreClick (h : Host) (e : ClickEvent) : bool :=
  match target e with
  | None => false
  | Some t =>
      if contains (panelPath h) t then true
      else if match findRefreshButton (dom h) with
              | Some rbtn => path_eqb t rbtn || contains rbtn t
              | None => false
              end
      then true
      else
        match closest (has_attr "data-bridge-ignore") (dom h) t with
        | Some _ => true
        | None =>
            match closest (has_class "bridge-ignore") (dom h) t with
            | Some _ => true
            | None => false
            end
        end
  end.

(** ** The persisted configuration *)

(** [saveCfg(delta)]: a blob that does not parse makes [JSON.parse] throw,
    and the [catch] leaves the storage as it is. *)
Definition saveCfg (delta : Obj) (w : World) : World :=
  match storage w with
  | BadText => w
  | NoItem => set_storage (Parsed (JObj (assign (assign [] (JObj [])) (JObj delta)))) w
  | Parsed cfg => set_storage (Parsed (JObj (assign (assign [] cfg) (JObj delta)))) w
  end.

(** The block that restores the local configuration when the script
    starts.  Reading a property of [null] throws, and the [catch] leaves
    the fields as they are. *)
Definition restoreCfg (b : Blob) (p : Panel) : Panel :=
  match b with
  | BadText => p
  | Parsed JNull => p
  | NoItem => p
  | Parsed cfg =>
      let p1 := if truthy (get cfg "xpathSelector")
                then panel_xpsel (to_string (get cfg "xpathSelector")) p
                else p in
      let p2 := match get cfg "capMode" with
                | JStr m => panel_capMode (select_assign capMode_options m) p1
                | _ => p1
                end in
      let p3 := match get cfg "midDelayMs" with
                | JNum n => panel_midDelay (of_Z n) p2
                | _ => p2
                end in
      match get cfg "waitAfterMs" with
      | JNum n => panel_wait (of_Z n) p3
      | _ => p3
      end
  end.

(** [updateCaptureUI()] *)
Definition updateCaptureUI (p : Panel) : Panel :=
  let mode := str_or (capMode p) "post" in
  let isMid := String.eqb mode "mid" in
  panel_capture_display isMid (negb isMid) p.

(** ** The selection *)

(** [getSelectedNode()] *)
Definition getSelectedNode (h : Host) : JsVal :=
  let n1 := window_selectedNode h in
  let n2 := js_and (js_and (window_store h) (get (window_store h) "state"))
                   (get (get (window_store h) "state") "selectedNode") in
  js_or (js_or n1 n2) JNull.

(** The loop of [extractBounds] over the candidate boxes. *)
Fixpoint first_match (texts : list string) : option string :=
  match texts with
  | [] => None
  | txt :: rest =>
      match exec BOUNDS_RE (str_or txt "") with
      | Some m => Some m
      | None => first_match rest
      end
  end.

(** [extractBounds()]; [None] is [undefined]. *)
Definition extractBounds (h : Host) : option string :=
  let node := getSelectedNode h in
  let from_node :=
    if truthy node then
      let b1 := get node "bounds" in
      let b2 := js_and (get node "attributes")
                       (get (get node "attributes") "bounds") in
      match js_or (js_or b1 b2) (JStr "") with
      | JStr b => if test BOUNDS_RE b then Some b else None
      | _ => None
      end
    else None in
  match from_node with
  | Some b => Some b
  | None => first_match (candidateTexts h)
  end.

(** ** Building and sending a request *)

Definition MSG_SENDING : string := "发送中…".
Definition MSG_MISSING_BOUNDS : string :=
  "缺少有效 Bounds（形如 [x1,y1][x2,y2]）".
Definition MSG_NOT_FOUND : string :=
  "未找到有效 Bounds（请先在 UIAutodev 中选中一个节点）".
Definition MSG_FILL_BOUNDS : string :=
  "请填写有效的 Bounds（形如 [x1,y1][x2,y2]）".

(** [($act.value || 'short-click').toLowerCase()] *)
Definition action_of (p : Panel) : string :=
  toLowerCase (str_or (act p) "short-click").

(** The body [postSelection] builds before it looks at the bounds. *)
Definition base_body (p : Panel) : Obj :=
  let action := action_of p in
  let durationMs := Z.max 1 (num_or (parseInt (str_or (dur p) "600")) 600) in
  let body := [("action", JStr action); ("durationMs", JNum durationMs);
               ("tap", JBool true)] in
  let mode := str_or (capMode p) "post" in
  let body :=
    if String.eqb mode "mid" then
      obj_set "midDelayMs"
        (JNum (Z.max 0 (num_or (parseInt (str_or (midDelay p) "50")) 50)))
        (obj_set "midCapture" (JBool true) body)
    else
      obj_set "waitAfterMs"
        (JNum (Z.max 0 (num_or (parseInt (str_or (wait p) "400")) 400)))
        body in
  let body :=
    if String.eqb action "input"
    then obj_set "text" (JStr (str_or (text p) "")) body
    else body in
  if String.eqb action "swipe" then
    obj_set "distance" (JNum (num_or (parseInt (str_or (dist p) "0")) 0))
      (obj_set "direction" (JStr (toLowerCase (str_or (dir p) "custom")))
         (obj_set "dy" (JNum (num_or (parseInt (str_or (dy p) "0")) 0))
            (obj_set "dx" (JNum (num_or (parseInt (str_or (dx p) "0")) 0))
               body)))
  else body.

(** The whole body, or [None] when an action other than [back] has no
    valid bounds. *)
Definition build_body (p : Panel) (bounds : string) : option Obj :=
  if String.eqb (action_of p) "back" then Some (base_body p)
  else if negb (String.eqb bounds "") && test BOUNDS_RE bounds
       then Some (obj_set "bounds" (JStr bounds) (base_body p))
       else None.

(** [postSelection({xpath, bounds, node})] up to its [fetch]: the state,
    and the request when one is sent.  Of its argument the function reads
    [bounds] only. *)
Definition postSelection_start (bounds : string) (w : World)
  : World * option Request :=
  let u := str_or (ep (panel w)) ENDPOINT_DEFAULT in
  let w1 := set_status MSG_SENDING w in
  match build_body (panel w1) bounds with
  | None => (set_status MSG_MISSING_BOUNDS w1, None)
  | Some b =>
      let r := mkRequest u "POST" [("Content-Type", "application/json")]
                         (Some (JObj b)) in
      (do_fetch r w1, Some r)
  end.

(** [resp.ok] *)
Definition resp_ok (code : Z) : bool := (200 <=? code) && (code <=? 299).

(** [postSelection] from the outcome of its [fetch] on. *)
Definition postSelection_resume (r : FetchResult) (w : World) : World :=
  match r with
  | Rejected e => set_status ("异常 " ++ e) w
  | Responded code json =>
      let data := match json with Some v => v | None => JObj [] end in
      if resp_ok code && truthy data && truthy (get data "ok") then
        let ct := if truthy (get data "capture_timing")
                  then "[" ++ to_string (get data "capture_timing") ++ "]"
                  else "" in
        call_scheduleRefreshClicks
          (set_status
             ("OK" ++ ct ++ " elem=" ++ to_string (get data "elem_id")
              ++ " center=(" ++ to_string (get_opt (get data "center") "x")
              ++ "," ++ to_string (get_opt (get data "center") "y") ++ ")")
             w)
      else
        set_status
          ("失败 " ++ to_string (js_or (get_opt data "error") (JNum code))) w
  end.

(** One call of [postSelection] with the outcome of its request. *)
Definition postSelection (net : Request -> FetchResult) (bounds : string)
           (w : World) : World :=
  match postSelection_start bounds w with
  | (w1, Some r) => postSelection_resume (net r) w1
  | (w1, None) => w1
  end.

(** [sendCurrentSelection(triggerEvent)] up to the [fetch]. *)
Definition sendCurrentSelection (h : Host) (w : World)
  : World * option Request :=
  if negb (auto_checked (panel w)) then (w, None)
  else if String.eqb (action_of (panel w)) "back"
  then postSelection_start "" w
  else
    match extractBounds h with
    | None => (set_status MSG_NOT_FOUND w, None)
    | Some b =>
        if String.eqb b "" || negb (test BOUNDS_RE b)
        then (set_status MSG_NOT_FOUND w, None)
        else postSelection_start b (with_panel (panel_bd b) w)
    end.

(** The click listener on [document], up to the [fetch]. *)
Definition clickListener (h : Host) (e : ClickEvent) (w : World)
  : World * option Request :=
  if shouldIgnoreClick h e then (w, None)
  else if negb (isTrusted e) then (w, None)
  else sendCurrentSelection h w.

(** [$send.onclick], up to the [fetch]. *)
Definition send_onclick (w : World) : World * option Request :=
  let b := trim (str_or (bd (panel w)) "") in
  if negb (String.eqb (action_of (panel w)) "back")
     && negb (test BOUNDS_RE b)
  then (set_status MSG_FILL_BOUNDS w, None)
  else postSelection_start b w.

(** ** Stop *)

(** [$stop.onclick] up to its [fetch]. *)
Definition stop_start (h : Host) (w : World) : World * option Request :=
  let w1 := with_panel (panel_auto false) w in
  let base := str_or (ep (panel w1)) ENDPOINT_DEFAULT in
  let target_url :=
    if endsWith "/bridge/capture_tap" base
    then inl (replace "/bridge/capture_tap" "/bridge/final_screenshot" base)
    else new_URL h "/bridge/final_screenshot" base in
  match target_url with
  | inl u =>
      let r := mkRequest u "POST" [] None in
      (do_fetch r w1, Some r)
  | inr err => (set_status ("停止异常 " ++ err) w1, None)
  end.

(** [$stop.onclick] from the outcome of its [fetch] on. *)
Definition stop_resume (r : FetchResult) (w : World) : World :=
  match r with
  | Rejected e => set_status ("停止异常 " ++ e) w
  | Responded code json =>
      let data := match json with Some v => v | None => JObj [] end in
      if resp_ok code && truthy data && truthy (get data "ok") then
        call_scheduleRefreshClicks
          (set_status
             ("已停止，最终截图: " ++ to_string (get data "file")) w)
      else
        set_status
          ("停止/截图失败 "
           ++ to_string (js_or (get_opt data "error") (JNum code))) w
  end.

(** ** The handlers of the other controls *)

(** [$applyR.onclick] *)
Definition applyR_onclick (w : World) : World :=
  let t := num_or (parseInt (str_or (rt (panel w)) "3")) 3 in
  let i := num_or (parseInt (str_or (ri (panel w)) "500")) 500 in
  let w1 := set_refresh_params (Z.max 0 t) (Z.max 0 i) w in
  set_status
    ("刷新参数已应用 times=" ++ of_Z (REFRESH_TIMES w1)
     ++ " interval=" ++ of_Z (REFRESH_INTERVAL w1) ++ "ms") w1.

(** [$saveSel.onclick] *)
Definition saveSel_onclick (w : World) : World :=
  set_status "已保存 XPath 选择器"
    (saveCfg [("xpathSelector", JStr (trim (str_or (xpsel (panel w)) "")))] w).

(** The [change] event of [#__capMode]: the listener [updateCaptureUI],
    then [onchange]. *)
Definition capMode_change (w : World) : World :=
  let w1 := with_panel updateCaptureUI w in
  saveCfg [("capMode", JStr (str_or (capMode (panel w1)) "post"))] w1.

(** [$wait.onchange] *)
Definition wait_change (w : World) : World :=
  saveCfg
    [("waitAfterMs",
      JNum (num_or (parseInt (str_or (wait (panel w)) "400")) 400))] w.

(** [$midDelay.onchange] *)
Definition midDelay_change (w : World) : World :=
  saveCfg
    [("midDelayMs",
      JNum (Z.max 0 (num_or (parseInt (str_or (midDelay (panel w)) "50")) 50)))]
    w.

(** The operator picks an option of [#__capMode], or types in [#__midDelay]
    or [#__wait] and leaves the field. *)
Definition operator_sets_capMode (v : string) (w : World) : World :=
  capMode_change (with_panel (panel_capMode (select_assign capMode_options v)) w).
Definition operator_sets_midDelay (v : string) (w : World) : World :=
  midDelay_change (with_panel (panel_midDelay v) w).
Definition operator_sets_wait (v : string) (w : World) : World :=
  wait_change (with_panel (panel_wait v) w).

(** ** Start of the script *)

(** The panel as its markup creates it. *)
Definition panel0 : Panel :=
  mkPanel ENDPOINT_DEFAULT "short-click" "600" "" true "" "0" "0" "custom"
          "0" "" "3" "500" "" "400" "50" "post" true true true true.

(** The script from its first line to its last, on a page [h] with [b] in
    the storage: the fields restored, the capture-timing inputs shown or
    hidden, the bounds field filled from the page. *)
Definition load (h : Host) (b : Blob) : World :=
  let p1 := updateCaptureUI (restoreCfg b panel0) in
  let p2 := match extractBounds h with
            | Some initBd =>
                if String.eqb initBd "" then p1 else panel_bd initBd p1
            | None => p1
            end in
  mkWorld (panel_status "就绪（优先 Bounds）" p2) 1 500 b [] [].

(** ** Which fields an action shows *)

Record ExtraFields : Type := mkExtra {
  text_shown : bool;
  dx_shown : bool;
  dy_shown : bool;
  dir_shown : bool;
  dist_shown : bool;
  dur_shown : bool;      (* the duration input and its label *)
  bd_disabled : bool     (* [$bd.disabled], and [$xp.disabled] *)
}.

(** [updateExtraFields()], as the display it leaves. *)
Definition updateExtraFields (p : Panel) : ExtraFields :=
  let a := toLowerCase (str_or (act p) "tap") in
  let showDur := String.eqb a "long-click" || String.eqb a "swipe" in
  let isInput := String.eqb a "input" in
  let isSwipe := negb isInput && String.eqb a "swipe" in
  let needNode := negb (String.eqb a "back") in
  mkExtra isInput isSwipe isSwipe isSwipe isSwipe showDur (negb needNode).

(** ** The events of the page, one after the other *)

(** What can happen while the operator leaves the [#__auto] box, the send
    button and the stop button alone: clicks anywhere on the page, the
    outcome of a request in flight, the other controls of the panel. *)
Inductive Event : Type :=
| EvClick (h : Host) (e : ClickEvent)
| EvPostDone (r : FetchResult)
| EvStopDone (r : FetchResult)
| EvApplyR
| EvSaveSel
| EvCapMode (v : string)
| EvMidDelay (v : string)
| EvWait (v : string).

Definition step (w : World) (ev : Event) : World :=
  match ev with
  | EvClick h e => fst (clickListener h e w)
  | EvPostDone r => postSelection_resume r w
  | EvStopDone r => stop_resume r w
  | EvApplyR => applyR_onclick w
  | EvSaveSel => saveSel_onclick w
  | EvCapMode v => operator_sets_capMode v w
  | EvMidDelay v => operator_sets_midDelay v w
  | EvWait v => operator_sets_wait v w
  end.

Definition steps (evs : list Event) (w : World) : World :=
  fold_left step evs w.

End Bridge.
Import Bridge.

(* ================================================================== *)
(** * The refresh scheduler *)

Module Scheduler.

(** One run of [scheduleRefreshClicks(times, delay)]: the counter of its
    closure, the time at which the armed timer fires (if one is armed), the
    times of the ticks so far and of the clicks on the button. *)
Record Run : Type := mkRun {
  count : Z;
  armed : option Z;
  ticks : list Z;
  clicks : list Z
}.

(** [scheduleRefreshClicks(times, delay)] called at [now]: the first
    timer is armed, whatever [times] is. *)
Definition scheduleRefreshClicks (delay now : Z) : Run :=
  mkRun 0 (Some (now + delay)) [] [].

(** The timer fires at [t] and runs [clickOnce]; [found t] tells whether
    [findRefreshButton()] locates the control then. *)
Definition clickOnce (times delay : Z) (found : Z -> bool) (t : Z) (r : Run)
  : Run :=
  let clicks' := if found t then (clicks r ++ [t])%list else clicks r in
  let count' := count r + 1 in
  mkRun count'
        (if count' <? times then Some (t + delay) else None)
        (ticks r ++ [t])%list clicks'.

(** The timers fire one after the other until none is armed. *)
Fixpoint run (fuel : nat) (times delay : Z) (found : Z -> bool) (r : Run)
  : Run :=
  match fuel with
  | O => r
  | S fuel' =>
      match armed r with
      | Some t => run fuel' times delay found (clickOnce times delay found t r)
      | None => r
      end
  end.

(** The whole run of [scheduleRefreshClicks(times, delay)] called at
    [now]. *)
Definition schedule (times delay : Z) (found : Z -> bool) (now : Z) : Run :=
  run (Z.to_nat (Z.max 1 times)) times delay found
      (scheduleRefreshClicks delay now).

(** The times [now + delay], [now + 2 * delay], ..., [n] of them. *)
Fixpoint tick_times (n : nat) (delay t : Z) : list Z :=
  match n with
  | O => []
  | S n' => (t + delay) :: tick_times n' delay (t + delay)
  end.

End Scheduler.

(* ================================================================== *)
(** * Every control of the panel *)

Module Controls.

Definition act_options : list string :=
  ["short-click"; "long-click"; "input"; "swipe"; "back"].

Definition dir_options : list string :=
  ["custom"; "up"; "down"; "left"; "right"].

(** [extractXPath()]: disabled, it returns the empty string. *)
Definition extractXPath : string := "".

(** [$grab.onclick]; the XPath field it would fill is not part of [Panel]. *)
Definition grab_onclick (w : World) : World :=
  match extractXPath with
  | EmptyString => set_status "未找到 XPath，请手动复制粘贴" w
  | _ => set_status "已抓取 XPath" w
  end.

(** The inputs the operator types in without a handler of the script
    running. *)
Inductive Field : Type :=
| Fep | Fdur | Fbd | Ftext | Fdx | Fdy | Fdist | Frt | Fri | Fxpsel.

Definition type_in (f : Field) (v : string) (p : Panel) : Panel :=
  mkPanel (match f with Fep => v | _ => ep p end)
          (act p)
          (match f with Fdur => v | _ => dur p end)
          (match f with Fbd => v | _ => bd p end)
          (auto_checked p)
          (match f with Ftext => v | _ => text p end)
          (match f with Fdx => v | _ => dx p end)
          (match f with Fdy => v | _ => dy p end)
          (dir p)
          (match f with Fdist => v | _ => dist p end)
          (status p)
          (match f with Frt => v | _ => rt p end)
          (match f with Fri => v | _ => ri p end)
          (match f with Fxpsel => v | _ => xpsel p end)
          (wait p) (midDelay p) (capMode p)
          (midDelayLabel_shown p) (midDelay_shown p)
          (waitLabel_shown p) (wait_shown p).

(** The operator picks an option of [#__act] or of [#__dir]. *)
Definition pick_act (v : string) (p : Panel) : Panel :=
  mkPanel (ep p) (select_assign act_options v) (dur p) (bd p) (auto_checked p)
          (text p) (dx p) (dy p) (dir p) (dist p) (status p) (rt p) (ri p)
          (xpsel p) (wait p) (midDelay p) (capMode p)
          (midDelayLabel_shown p) (midDelay_shown p)
          (waitLabel_shown p) (wait_shown p).

Definition pick_dir (v : string) (p : Panel) : Panel :=
  mkPanel (ep p) (act p) (dur p) (bd p) (auto_checked p)
          (text p) (dx p) (dy p) (select_assign dir_options v) (dist p)
          (status p) (rt p) (ri p)
          (xpsel p) (wait p) (midDelay p) (capMode p)
          (midDelayLabel_shown p) (midDelay_shown p)
          (waitLabel_shown p) (wait_shown p).

(** Everything that can happen to the script once it runs: the clicks on
    the page, the controls of the panel, the outcomes of the requests. *)
Inductive Action : Type :=
| AClick (h : Host) (e : ClickEvent)
| ASend
| AStop (h : Host)
| APostDone (r : FetchResult)
| AStopDone (r : FetchResult)
| AApplyR
| ASaveSel
| AGrab
| ACapMode (v : string)
| AMidDelay (v : string)
| AWait (v : string)
| AType (f : Field) (v : string)
| APickAct (v : string)
| APickDir (v : string)
| AToggleAuto (b : bool).

Definition react (w : World) (a : Action) : World :=
  match a with
  | AClick h e => fst (clickListener h e w)
  | ASend => fst (send_onclick w)
  | AStop h => fst (stop_start h w)
  | APostDone r => postSelection_resume r w
  | AStopDone r => stop_resume r w
  | AApplyR => applyR_onclick w
  | ASaveSel => saveSel_onclick w
  | AGrab => grab_onclick w
  | ACapMode v => operator_sets_capMode v w
  | AMidDelay v => operator_sets_midDelay v w
  | AWait v => operator_sets_wait v w
  | AType f v => with_panel (type_in f v) w
  | APickAct v => with_panel (pick_act v) w
  | APickDir v => with_panel (pick_dir v) w
  | AToggleAuto b => with_panel (panel_auto b) w
  end.

(** A session: the script starts on a page with some content of the
    storage, and the actions follow one another. *)
Definition session (h : Host) (b : Blob) (acts : list Action) : World :=
  fold_left react acts (load h b).

End Controls.
Import Controls.

(* ================================================================== *)
(** * The console script [weditor_autosend.js] *)

Module Autosend.

Definition BRIDGE_DEFAULT : string := "http://127.0.0.1:8001".

(** What the console script reads from the page and the storage. *)
Record AutoHost : Type := mkAutoHost {
  page : Host;                     (* the window, as the panel reads it *)
  BRIDGE_BASE : option string;     (* localStorage.getItem('BRIDGE_BASE') *)
  pre_json : option JsVal;         (* the text of the first [pre, code]
                                      element parsed as JSON; [None] when
                                      there is none or it does not parse *)
  input_values : list string       (* of each textarea and text input, in
                                      document order: its [value], or
                                      its text content *)
}.

Inductive Log : Type :=
| WarnNoNode                       (* console.warn: no selected node *)
| WarnNoAddress                    (* console.warn: no bounds and no xpath *)
| LogPost (u : string) (b : JsVal) (* console.log: POST -> *)
| LogFailed (data : JsVal)         (* console.error: failed *)
| LogOk (data : JsVal)             (* console.log: success *)
| LogNetworkError.                 (* console.error: network or CORS *)

(** [typeof v === 'string'] *)
Definition typeof_string (v : JsVal) : bool :=
  match v with JStr _ => true | _ => false end.

(** [pickBounds(node)]: [node.bounds] is tested against the pattern,
    [node.attributes.bounds] is not. *)
Definition pickBounds (node : JsVal) : JsVal :=
  if negb (truthy node) then JNull
  else if typeof_string (get node "bounds")
          && match get node "bounds" with
             | JStr b => test BOUNDS_RE b
             | _ => false
             end
  then get node "bounds"
  else if truthy (get node "attributes")
          && typeof_string (get (get node "attributes") "bounds")
  then get (get node "attributes") "bounds"
  else JNull.

(** [isXPathText(s)]; the pattern [/^(\/|\.\/|\.\/\/|\/\/)/] is its four
    alternatives at the start of the string. *)
Definition isXPathText (s : string) : bool :=
  match s with
  | EmptyString => false
  | _ =>
      let v := trim s in
      (startsWith "/" v || startsWith "./" v || startsWith ".//" v
       || startsWith "//" v)
      || includes "/hierarchy" v
      || startsWith ".//" v
  end.

(** The loop over the candidate inputs: the first value that reads as an
    XPath. *)
Fixpoint first_xpath (values : list string) : option string :=
  match values with
  | [] => None
  | raw :: rest =>
      let val := trim raw in
      if isXPathText val then Some val else first_xpath rest
  end.

(** The node the script settles on: the selected node of the window,
    else what the [pre, code] element holds. *)
Definition find_node (a : AutoHost) : JsVal :=
  let node := getSelectedNode (page a) in
  if negb (truthy node) then
    match pre_json a with
    | Some v => v
    | None => node
    end
  else node.

(** The XPath the script settles on for a node. *)
Definition find_xpath (a : AutoHost) (node : JsVal) : JsVal :=
  let xpath :=
    js_or (js_or (get node "xpath")
                 (js_and (get node "attributes")
                         (get (get node "attributes") "xpath")))
          (JStr "") in
  if negb (truthy xpath) then
    match first_xpath (input_values a) with
    | Some val => JStr val
    | None => xpath
    end
  else xpath.

(** The script up to its [fetch]: what it logs, and the request when it
    sends one. *)
Definition autosend_start (a : AutoHost) : list Log * option Request :=
  let BRIDGE := match BRIDGE_BASE a with
                | Some s => str_or s BRIDGE_DEFAULT
                | None => BRIDGE_DEFAULT
                end in
  let node := find_node a in
  if negb (truthy node) then ([WarnNoNode], None)
  else
    let bounds := pickBounds node in
    let xpath := find_xpath a node in
    if negb (truthy bounds) && negb (truthy xpath)
    then ([WarnNoAddress], None)
    else
      let b := JObj [("bounds", bounds); ("xpath", xpath); ("node", node);
                     ("tap", JBool true)] in
      let u := BRIDGE ++ "/bridge/capture_tap" in
      ([LogPost u b],
       Some (mkRequest u "POST" [("Content-Type", "application/json")]
                       (Some b))).

(** The script from the outcome of its [fetch] on: what it logs, and the
    arguments of [scheduleRefreshClicks] when it calls it.  A body that is
    no JSON makes [resp.json()] throw, and reading [ok] of [null] throws:
    both end in the [catch]. *)
Definition autosend_resume (r : FetchResult) : list Log * option (Z * Z) :=
  match r with
  | Rejected _ => ([LogNetworkError], None)
  | Responded _ None => ([LogNetworkError], None)
  | Responded code (Some data) =>
      if negb (resp_ok code) then ([LogFailed data], None)
      else
        match data with
        | JNull | JUndefined => ([LogNetworkError], None)
        | _ =>
            if negb (truthy (get data "ok")) then ([LogFailed data], None)
            else ([LogOk data], Some (3, 500))
        end
  end.

End Autosend.

(* ================================================================== *)
(** * The vocabulary of the specification *)

Fixpoint all_digits (s : string) : bool :=
  match s with
  | EmptyString => true
  | String c s' => is_digit c && all_digits s'
  end.

(** A non-negative integer in decimal: one digit or more. *)
Definition is_uint (s : string) : Prop :=
  s <> "" /\ all_digits s = true.

(** A string of exactly the form [[x1,y1][x2,y2]]. *)
Definition rect_form (s : string) : Prop :=
  exists x1 y1 x2 y2,
    is_uint x1 /\ is_uint y1 /\ is_uint x2 /\ is_uint y2 /\
    s = "[" ++ x1 ++ "," ++ y1 ++ "][" ++ x2 ++ "," ++ y2 ++ "]".

(** A string that holds a rectangle somewhere. *)
Definition contains_rect (s : string) : Prop :=
  exists pre m post, s = pre ++ m ++ post /\ rect_form m.

(** Two payloads with the same fields, in whatever order. *)
Definition same_fields (a b : Obj) : Prop :=
  forall k, lookup k a = lookup k b.

(** The field [k] of the payload of a request. *)
Definition payload_field (k : string) (r : Request) : option JsVal :=
  match body r with
  | Some (JObj o) => lookup k o
  | _ => None
  end.

(** No key twice in an object. *)
Definition wf_obj (o : Obj) : Prop := NoDup (map fst o).

(** An entry point gave up before any [fetch]: no request, the requests
    sent so far as they were, and [msg] on the status line. *)
Definition aborted_with (msg : string) (w : World)
           (res : World * option Request) : Prop :=
  snd res = None /\ fetches (fst res) = fetches w /\
  status (panel (fst res)) = msg.

(** What [sendCurrentSelection] got from the page is no valid rectangle. *)
Definition no_valid_rectangle (o : option string) : Prop :=
  match o with
  | None => True
  | Some b => b = "" \/ test BOUNDS_RE b = false
  end.

(** A request as the panel sends them: a POST, either the bodiless one of
    stop, or one whose payload names an action of the select, carries
    [tap] and a duration of 1 at least, and carries bounds that pass the
    pattern unless the action is [back], which carries none. *)
Definition request_ok (r : Request) : Prop :=
  method r = "POST" /\
  (body r = None \/
   exists o a d,
     body r = Some (JObj o) /\
     lookup "action" o = Some (JStr a) /\ In a act_options /\
     lookup "tap" o = Some (JBool true) /\
     lookup "durationMs" o = Some (JNum d) /\ 1 <= d /\
     (a = "back" -> lookup "bounds" o = None) /\
     (a <> "back" ->
      exists b, lookup "bounds" o = Some (JStr b) /\ test BOUNDS_RE b = true)).

(** The capture-timing inputs are displayed as the capture mode asks. *)
Definition capture_in_sync (p : Panel) : Prop :=
  midDelay_shown p = String.eqb (capMode p) "mid" /\
  midDelayLabel_shown p = String.eqb (capMode p) "mid" /\
  wait_shown p = negb (String.eqb (capMode p) "mid") /\
  waitLabel_shown p = negb (String.eqb (capMode p) "mid").

(** What holds of every state the script can be in. *)
Definition panel_invariant (w : World) : Prop :=
  0 <= REFRESH_TIMES w /\ 0 <= REFRESH_INTERVAL w /\
  (act (panel w) = "" \/ In (act (panel w)) act_options) /\
  (capMode (panel w) = "" \/ In (capMode (panel w)) capMode_options) /\
  capture_in_sync (panel w) /\
  Forall request_ok (fetches w) /\
  Forall (fun td => 0 <= fst td /\ 0 <= snd td) (refreshes w).

(* ================================================================== *)
(** * Scenarios *)

Module Scenario.

(** A page: a refresh button with its icon, then the panel. *)
Definition page : Element :=
  Elem "html" [] []
    [ Elem "body" [] []
        [ Elem "button" ["p-button"] []
            [ Elem "span" ["p-button-icon"; "pi"; "pi-refresh"] [] [] ];
          Elem "div" ["tree"] [] [ Elem "span" [] [] [] ];
          Elem "div" [] [] [ Elem "input" [] [] []; Elem "button" [] [] [] ] ] ].

Definition panel_at : path := [0; 2]%nat.
Definition refresh_button_at : path := [0; 0]%nat.
Definition refresh_icon_at : path := [0; 0; 0]%nat.

(** The page with nothing selected and no rectangle on display. *)
Definition host_no_selection : Host :=
  mkHost page panel_at JUndefined JUndefined []
         (fun _ _ => inr "TypeError: Invalid URL").

(** The page with a node selected. *)
Definition host_selected (bounds : string) : Host :=
  mkHost page panel_at (JObj [("bounds", JStr bounds)]) JUndefined []
         (fun _ _ => inr "TypeError: Invalid URL").

(** The panel as the markup creates it, with the action [a], the bounds
    field [b], and the swipe fields. *)
Definition panel_with (a b dxv dyv dirv distv : string) : Panel :=
  mkPanel ENDPOINT_DEFAULT a "600" b true "" dxv dyv dirv distv "" "3" "500"
          "" "400" "50" "post" false false true true.

Definition world_of (p : Panel) : World := mkWorld p 1 500 NoItem [] [].

(** Short click is the tap of the panel; capture mode [post], wait 400. *)
Definition tap_world : World :=
  world_of (panel_with "short-click" "[10,20][110,70]" "0" "0" "custom" "0").

(** The same with an action value [tap], which the select does not
    offer. *)
Definition tap_world_named_tap : World :=
  world_of (panel_with "tap" "[10,20][110,70]" "0" "0" "custom" "0").

Definition back_world : World :=
  world_of (panel_with "back" "[10,20][110,70]" "0" "0" "custom" "0").

Definition swipe_world (dxv dyv : string) : World :=
  world_of (panel_with "swipe" "[10,20][110,70]" dxv dyv "up" "300").

(** The payload the scenario of the specification lists. *)
Definition listed_tap_payload : Obj :=
  [("action", JStr "tap"); ("bounds", JStr "[10,20][110,70]");
   ("tap", JBool true); ("waitAfterMs", JNum 400)].

(** [{"ok":true,"elem_id":"elem_3","center":{"x":60,"y":45}}] with
    status 200. *)
Definition tap_response : FetchResult :=
  Responded 200
    (Some (JObj [("ok", JBool true); ("elem_id", JStr "elem_3");
                 ("center", JObj [("x", JNum 60); ("y", JNum 45)])])).

(** The operator has typed [-1] as the number of refresh clicks. *)
Definition world_times_minus_one : World :=
  world_of (mkPanel ENDPOINT_DEFAULT "short-click" "600" "" true "" "0" "0"
                    "custom" "0" "" "-1" "500" "" "400" "50" "post"
                    false false true true).

End Scenario.

(* ================================================================== *)
(** * More scenarios *)

Module MoreScenarios.

(** The page of [Scenario.page] with its tree marked as a region to
    ignore. *)
Definition page_marked : Element :=
  Elem "html" [] []
    [ Elem "body" [] []
        [ Elem "button" ["p-button"] []
            [ Elem "span" ["p-button-icon"; "pi"; "pi-refresh"] [] [] ];
          Elem "div" ["tree"] ["data-bridge-ignore"] [ Elem "span" [] [] [] ];
          Elem "div" [] [] [ Elem "input" [] [] []; Elem "button" [] [] [] ] ] ].

(** That page, with a node selected. *)
Definition host_marked : Host :=
  mkHost page_marked Scenario.panel_at
         (JObj [("bounds", JStr "[10,20][110,70]")]) JUndefined []
         (fun _ _ => inr "TypeError: Invalid URL").

End MoreScenarios.

(* ================================================================== *)
(** * Properties of the strings and of the patterns *)

Section StringFacts.

Lemma append_empty_r (a : string) : a ++ "" = a.
Proof.
  induction a as [|x a IH]; simpl; [reflexivity | now rewrite IH].
Qed.

End StringFacts.

Section RegexFacts.

(** What the matcher returns is a word of the pattern and a prefix of
    the input. *)
Lemma match_here_sound (s : string) :
  forall r m, match_here r s = Some m ->
              lang r m /\ exists rest, s = m ++ rest.
Proof.
  induction s as [|c s IH]; intros r m H.
  - destruct r as [|[a|a] r']; simpl in H; try discriminate.
    injection H as <-. split; [constructor | now exists ""].
  - destruct r as [|[a|a] r']; simpl in H.
    + injection H as <-. split; [constructor | now exists (String c s)].
    + destruct (atom_ok a c) eqn:Ha; [|discriminate].
      destruct (match_here r' s) as [m'|] eqn:Hm; [|discriminate].
      injection H as <-.
      destruct (IH _ _ Hm) as [Hl [rest ->]].
      split; [now constructor | now exists rest].
    + destruct (atom_ok a c) eqn:Ha; [|discriminate].
      destruct (match_here (Plus a :: r') s) as [m1|] eqn:H1.
      * injection H as <-.
        destruct (IH _ _ H1) as [Hl [rest ->]].
        split; [now apply lang_plus_more | now exists rest].
      * destruct (match_here r' s) as [m2|] eqn:H2; [|discriminate].
        injection H as <-.
        destruct (IH _ _ H2) as [Hl [rest ->]].
        split; [now apply lang_plus_last | now exists rest].
Qed.

(** Backtracking misses no word: where a word of the pattern starts the
    input, the matcher finds a match. *)
Lemma match_here_complete (r : regex) (m : string) :
  lang r m -> forall rest, exists m', match_here r (m ++ rest) = Some m'.
Proof.
  induction 1 as [|a c r m Ha _ IH|a c r m Ha _ IH|a c r m Ha _ IH];
    intros rest.
  - exists "". now destruct rest.
  - destruct (IH rest) as [m' Hm']. exists (String c m').
    simpl. now rewrite Ha, Hm'.
  - destruct (IH rest) as [m' Hm']. simpl. rewrite Ha.
    destruct (match_here (Plus a :: r) (m ++ rest)) as [m1|].
    + now exists (String c m1).
    + rewrite Hm'. now exists (String c m').
  - destruct (IH rest) as [m' Hm']. exists (String c m').
    simpl. simpl in Hm'. now rewrite Ha, Hm'.
Qed.

Lemma exec_eq (r : regex) (s : string) :
  exec r s =
  match match_here r s with
  | Some m => Some m
  | None => match s with
            | EmptyString => None
            | String _ s' => exec r s'
            end
  end.
Proof. destruct s; reflexivity. Qed.

Lemma exec_sound (r : regex) (s : string) :
  forall m, exec r s = Some m ->
            lang r m /\ exists pre post, s = pre ++ m ++ post.
Proof.
  induction s as [|c s IH]; intros m H; rewrite exec_eq in H.
  - destruct (match_here r "") as [m'|] eqn:Hm; [|discriminate].
    injection H as <-.
    destruct (match_here_sound _ _ _ Hm) as [Hl [rest E]].
    split; [assumption | now exists "", rest].
  - destruct (match_here r (String c s)) as [m'|] eqn:Hm.
    + injection H as <-.
      destruct (match_here_sound _ _ _ Hm) as [Hl [rest E]].
      split; [assumption | now exists "", rest].
    + destruct (IH _ H) as [Hl [pre [post ->]]].
      split; [assumption | now exists (String c pre), post].
Qed.

Lemma exec_complete (r : regex) (m : string) :
  lang r m ->
  forall pre post, exists m', exec r (pre ++ m ++ post) = Some m'.
Proof.
  intros Hl pre post. induction pre as [|c pre IH].
  - destruct (match_here_complete r m Hl post) as [m' Hm'].
    exists m'. rewrite exec_eq. cbn [append]. now rewrite Hm'.
  - rewrite exec_eq. cbn [append].
    destruct (match_here r (String c (pre ++ m ++ post))) as [m1|].
    + now exists m1.
    + exact IH.
Qed.

(** [r.test(s)] holds exactly when [s] holds a word of [r]. *)
Lemma test_spec (r : regex) (s : string) :
  test r s = true <->
  exists pre m post, s = pre ++ m ++ post /\ lang r m.
Proof.
  unfold test. split.
  - destruct (exec r s) as [m|] eqn:H; [|discriminate]. intros _.
    destruct (exec_sound _ _ _ H) as [Hl [pre [post E]]].
    now exists pre, m, post.
  - intros [pre [m [post [-> Hl]]]].
    destruct (exec_complete r m Hl pre post) as [m' ->]. reflexivity.
Qed.

(** The words of [c r]. *)
Lemma lang_lit (c : ascii) (r : regex) (m : string) :
  lang (One (Lit c) :: r) m <-> exists m', m = String c m' /\ lang r m'.
Proof.
  split.
  - inversion 1; subst. simpl in *.
    match goal with H : Ascii.eqb _ _ = true |- _ =>
      apply Ascii.eqb_eq in H; subst end.
    eauto.
  - intros [m' [-> Hl]]. constructor; [apply Ascii.eqb_refl | assumption].
Qed.

(** The words of [\d+ r]. *)
Lemma lang_digits (r : regex) (m : string) :
  lang (Plus Digit :: r) m <->
  exists a m', is_uint a /\ m = a ++ m' /\ lang r m'.
Proof.
  split.
  - intros H. remember (Plus Digit :: r) as p eqn:Ep.
    induction H as [|a c r0 m Ha Hm IH|a c r0 m Ha Hm IH|a c r0 m Ha Hm IH];
      try discriminate.
    + injection Ep as -> ->.
      exists (String c ""), m. repeat split; simpl.
      * discriminate.
      * simpl in Ha. now rewrite Ha.
      * assumption.
    + injection Ep as -> ->.
      destruct (IH eq_refl) as [d [m' [[_ Hd] [-> Hl]]]].
      exists (String c d), m'. repeat split; simpl.
      * discriminate.
      * simpl in Ha. now rewrite Ha, Hd.
      * assumption.
  - intros [a [m' [[Hne Hd] [-> Hl]]]].
    induction a as [|c a IH]; [now elim Hne|].
    simpl in Hd. apply andb_true_iff in Hd as [Hc Hd]. simpl.
    destruct a as [|c' a'].
    + apply lang_plus_last; assumption.
    + apply lang_plus_more; [assumption|].
      apply IH; [discriminate | assumption].
Qed.

(** The words of [BOUNDS_RE] are the rectangles. *)
Lemma lang_BOUNDS_RE (m : string) : lang BOUNDS_RE m <-> rect_form m.
Proof.
  unfold BOUNDS_RE, rect_form. split.
  - intros H.
    apply lang_lit in H as [m1 [-> H]].
    apply lang_digits in H as [x1 [m2 [Hx1 [-> H]]]].
    apply lang_lit in H as [m3 [-> H]].
    apply lang_digits in H as [y1 [m4 [Hy1 [-> H]]]].
    apply lang_lit in H as [m5 [-> H]].
    apply lang_lit in H as [m6 [-> H]].
    apply lang_digits in H as [x2 [m7 [Hx2 [-> H]]]].
    apply lang_lit in H as [m8 [-> H]].
    apply lang_digits in H as [y2 [m9 [Hy2 [-> H]]]].
    apply lang_lit in H as [m10 [-> H]].
    inversion H; subst.
    exists x1, y1, x2, y2. repeat (split; [assumption|]). reflexivity.
  - intros [x1 [y1 [x2 [y2 [Hx1 [Hy1 [Hx2 [Hy2 ->]]]]]]]].
    apply lang_lit. eexists; split; [reflexivity|].
    apply lang_digits. exists x1; eexists; split; [assumption|]; split; [reflexivity|].
    apply lang_lit. eexists; split; [reflexivity|].
    apply lang_digits. exists y1; eexists; split; [assumption|]; split; [reflexivity|].
    apply lang_lit. eexists; split; [reflexivity|].
    apply lang_lit. eexists; split; [reflexivity|].
    apply lang_digits. exists x2; eexists; split; [assumption|]; split; [reflexivity|].
    apply lang_lit. eexists; split; [reflexivity|].
    apply lang_digits. exists y2; eexists; split; [assumption|]; split; [reflexivity|].
    apply lang_lit. eexists; split; [reflexivity|].
    constructor.
Qed.

(** [BOUNDS_RE.test(s)] holds exactly when [s] holds a rectangle. *)
Lemma test_BOUNDS_RE (s : string) :
  test BOUNDS_RE s = true <-> contains_rect s.
Proof.
  rewrite test_spec. unfold contains_rect.
  split; intros [pre [m [post [E H]]]]; exists pre, m, post;
    (split; [assumption | now apply lang_BOUNDS_RE]).
Qed.

(** What [exec] returns is a rectangle, and passes [test] again. *)
Lemma exec_BOUNDS_RE_rect (s m : string) :
  exec BOUNDS_RE s = Some m -> rect_form m /\ test BOUNDS_RE m = true.
Proof.
  intros H. destruct (exec_sound _ _ _ H) as [Hl _].
  apply lang_BOUNDS_RE in Hl. split; [assumption|].
  apply test_BOUNDS_RE. exists "", m, "".
  now rewrite append_empty_r.
Qed.

Lemma rect_form_starts_with_bracket (s : string) :
  rect_form s -> exists s', s = String "[" s'.
Proof.
  intros [x1 [y1 [x2 [y2 [_ [_ [_ [_ ->]]]]]]]]. simpl. eauto.
Qed.

End RegexFacts.

(* ================================================================== *)
(** * Properties of objects *)

Section ObjectFacts.

Lemma lookup_obj_set_same (k : string) (v : JsVal) (o : Obj) :
  lookup k (obj_set k v o) = Some v.
Proof.
  induction o as [|[k' v'] o IH]; simpl.
  - now rewrite String.eqb_refl.
  - destruct (String.eqb k k') eqn:E; simpl; rewrite E; [reflexivity | exact IH].
Qed.

Lemma lookup_obj_set_other (k k' : string) (v : JsVal) (o : Obj) :
  k <> k' -> lookup k (obj_set k' v o) = lookup k o.
Proof.
  intros Hne. induction o as [|[k1 v1] o IH]; simpl.
  - apply String.eqb_neq in Hne. now rewrite Hne.
  - destruct (String.eqb k' k1) eqn:E; simpl.
    + apply String.eqb_eq in E; subst k1.
      apply String.eqb_neq in Hne. now rewrite Hne.
    + now rewrite IH.
Qed.

Lemma lookup_not_in (k : string) (o : Obj) :
  ~ In k (map fst o) -> lookup k o = None.
Proof.
  induction o as [|[k1 v1] o IH]; simpl; intros H; [reflexivity|].
  destruct (String.eqb_spec k k1) as [->|Hne].
  - exfalso. apply H. now left.
  - apply IH. intros Hin. apply H. now right.
Qed.

Lemma keys_obj_set (k k' : string) (v : JsVal) (o : Obj) :
  In k' (map fst (obj_set k v o)) <-> k' = k \/ In k' (map fst o).
Proof.
  induction o as [|[k1 v1] o IH]; simpl.
  - intuition congruence.
  - destruct (String.eqb_spec k k1) as [->|Hne]; simpl.
    + intuition congruence.
    + rewrite IH. intuition congruence.
Qed.

Lemma wf_obj_set (k : string) (v : JsVal) (o : Obj) :
  wf_obj o -> wf_obj (obj_set k v o).
Proof.
  unfold wf_obj. induction o as [|[k1 v1] o IH]; simpl; intros H.
  - constructor; [intros [] | constructor].
  - inversion H as [|? ? Hnotin Hnd]; subst.
    destruct (String.eqb_spec k k1) as [->|Hne]; simpl.
    + now constructor.
    + constructor; [|now apply IH].
      rewrite keys_obj_set. intros [E|Hin]; [congruence | contradiction].
Qed.

Lemma wf_fold_set (l : Obj) :
  forall acc, wf_obj acc ->
    wf_obj (fold_left (fun o kv => obj_set (fst kv) (snd kv) o) l acc).
Proof.
  induction l as [|[k v] l IH]; simpl; intros acc H; [assumption|].
  apply IH. now apply wf_obj_set.
Qed.

Lemma wf_assign (target : Obj) (src : JsVal) :
  wf_obj target -> wf_obj (assign target src).
Proof. intros H. unfold assign. now apply wf_fold_set. Qed.

Lemma wf_nil : wf_obj [].
Proof. constructor. Qed.

Lemma lookup_fold_set (l : Obj) :
  wf_obj l ->
  forall acc k,
    lookup k (fold_left (fun o kv => obj_set (fst kv) (snd kv) o) l acc)
    = match lookup k l with
      | Some v => Some v
      | None => lookup k acc
      end.
Proof.
  unfold wf_obj. induction l as [|[k1 v1] l IH]; simpl; intros H acc k;
    [reflexivity|].
  inversion H as [|? ? Hnotin Hnd]; subst.
  rewrite (IH Hnd).
  destruct (String.eqb_spec k k1) as [->|Hne].
  - rewrite (lookup_not_in _ _ Hnotin). apply lookup_obj_set_same.
  - now rewrite lookup_obj_set_other.
Qed.

(** Copying an object that has no key twice keeps every field. *)
Lemma lookup_assign_copy (o : Obj) (k : string) :
  wf_obj o -> lookup k (assign [] (JObj o)) = lookup k o.
Proof.
  intros H. unfold assign. simpl own_props.
  rewrite (lookup_fold_set o H). now destruct (lookup k o).
Qed.

End ObjectFacts.

(* ================================================================== *)
(** * Properties of the request builder *)

Section RequestFacts.

Ltac body_cases :=
  unfold base_body; cbv zeta;
  repeat match goal with
         | |- context [if ?c then _ else _] => destruct c
         end;
  cbn -[Z.max num_or parseInt toLowerCase]; try reflexivity.

Lemma action_of_status (s : string) (p : Panel) :
  action_of (panel_status s p) = action_of p.
Proof. reflexivity. Qed.

Lemma base_body_status (s : string) (p : Panel) :
  base_body (panel_status s p) = base_body p.
Proof. reflexivity. Qed.

Lemma build_body_status (s b : string) (p : Panel) :
  build_body (panel_status s p) b = build_body p b.
Proof. reflexivity. Qed.

(** The duration is in the body whatever the action. *)
Lemma base_body_durationMs (p : Panel) :
  lookup "durationMs" (base_body p)
  = Some (JNum (Z.max 1 (num_or (parseInt (str_or (dur p) "600")) 600))).
Proof. body_cases. Qed.

Lemma base_body_no_bounds (p : Panel) :
  lookup "bounds" (base_body p) = None.
Proof. body_cases. Qed.

Lemma base_body_no_xpath (p : Panel) :
  lookup "xpath" (base_body p) = None.
Proof. body_cases. Qed.

Lemma base_body_short_click_post (p : Panel) :
  action_of p = "short-click" -> capMode p = "post" -> wait p = "400" ->
  base_body p =
  [("action", JStr "short-click");
   ("durationMs",
    JNum (Z.max 1 (num_or (parseInt (str_or (dur p) "600")) 600)));
   ("tap", JBool true); ("waitAfterMs", JNum 400)].
Proof.
  intros Ha Hc Hw. unfold base_body. rewrite Ha, Hc, Hw.
  cbn -[Z.max num_or parseInt]. reflexivity.
Qed.

(** The swipe fields are all four in the body of a swipe. *)
Lemma base_body_swipe (p : Panel) :
  action_of p = "swipe" ->
  lookup "dx" (base_body p)
  = Some (JNum (num_or (parseInt (str_or (dx p) "0")) 0)) /\
  lookup "dy" (base_body p)
  = Some (JNum (num_or (parseInt (str_or (dy p) "0")) 0)) /\
  lookup "direction" (base_body p)
  = Some (JStr (toLowerCase (str_or (dir p) "custom"))) /\
  lookup "distance" (base_body p)
  = Some (JNum (num_or (parseInt (str_or (dist p) "0")) 0)).
Proof.
  intros Ha. unfold base_body. rewrite Ha. cbv zeta.
  destruct (String.eqb (str_or (capMode p) "post") "mid");
    cbn -[Z.max num_or parseInt toLowerCase]; repeat split.
Qed.

Lemma build_body_back (p : Panel) (bounds : string) :
  action_of p = "back" -> build_body p bounds = Some (base_body p).
Proof. intros Ha. unfold build_body. now rewrite Ha. Qed.

Lemma build_body_valid (p : Panel) (bounds : string) :
  action_of p <> "back" -> bounds <> "" -> test BOUNDS_RE bounds = true ->
  build_body p bounds = Some (obj_set "bounds" (JStr bounds) (base_body p)).
Proof.
  intros Ha Hb Ht. unfold build_body.
  apply String.eqb_neq in Ha, Hb. now rewrite Ha, Hb, Ht.
Qed.

Lemma build_body_invalid (p : Panel) (bounds : string) :
  action_of p <> "back" -> bounds = "" \/ test BOUNDS_RE bounds = false ->
  build_body p bounds = None.
Proof.
  intros Ha Hb. unfold build_body.
  apply String.eqb_neq in Ha. rewrite Ha.
  destruct Hb as [->|Ht]; [reflexivity|].
  rewrite Ht. now rewrite andb_false_r.
Qed.

(** A body that is built is the base body, with the bounds or without. *)
Lemma build_body_some (p : Panel) (bounds : string) (b : Obj) :
  build_body p bounds = Some b ->
  b = base_body p \/ b = obj_set "bounds" (JStr bounds) (base_body p).
Proof.
  unfold build_body.
  destruct (String.eqb (action_of p) "back"); [intros [= <-]; now left|].
  destruct (negb (String.eqb bounds "") && test BOUNDS_RE bounds);
    [intros [= <-]; now right | discriminate].
Qed.

(** What [postSelection] does up to its [fetch], by what the builder
    gives. *)
Lemma postSelection_start_sends (bounds : string) (w : World) (b : Obj) :
  build_body (panel w) bounds = Some b ->
  let r := mkRequest (str_or (ep (panel w)) ENDPOINT_DEFAULT) "POST"
                     [("Content-Type", "application/json")] (Some (JObj b)) in
  postSelection_start bounds w
  = (do_fetch r (set_status MSG_SENDING w), Some r).
Proof.
  intros Hb r. unfold postSelection_start.
  cbn [panel set_status with_panel]. rewrite build_body_status, Hb.
  reflexivity.
Qed.

Lemma postSelection_start_aborts (bounds : string) (w : World) :
  build_body (panel w) bounds = None ->
  postSelection_start bounds w
  = (set_status MSG_MISSING_BOUNDS (set_status MSG_SENDING w), None).
Proof.
  intros Hb. unfold postSelection_start.
  cbn [panel set_status with_panel]. rewrite build_body_status, Hb.
  reflexivity.
Qed.

(** A request [postSelection] sends carries a body the builder gave. *)
Lemma postSelection_start_request (bounds : string) (w w1 : World)
      (r : Request) :
  postSelection_start bounds w = (w1, Some r) ->
  exists b, build_body (panel w) bounds = Some b /\ body r = Some (JObj b) /\
            w1 = do_fetch r (set_status MSG_SENDING w).
Proof.
  intros H. destruct (build_body (panel w) bounds) as [b|] eqn:Hb.
  - rewrite (postSelection_start_sends _ _ _ Hb) in H.
    injection H as <- <-. exists b. repeat split.
  - rewrite (postSelection_start_aborts _ _ Hb) in H. discriminate.
Qed.

End RequestFacts.

(* ================================================================== *)
(** * The claims on the request builder *)

Section BuilderClaims.

(** C1 (as the code has it): in the tap scenario -- the short click of the panel,
    capture mode [post], wait 400, rectangle [[10,20][110,70]] -- the
    request carries the five fields [action] ("short-click"),
    [durationMs] (the duration field, 600 when it is left alone, 1 at
    least), [tap], [waitAfterMs] (400) and [bounds]; with the response
    [{"ok":true,"elem_id":"elem_3","center":{"x":60,"y":45}}] under
    status 200 the status line reads [OK elem=elem_3 center=(60,45)], and
    [scheduleRefreshClicks] is called once. *)
Theorem C1_tap_scenario (w : World) :
  action_of (panel w) = "short-click" ->
  capMode (panel w) = "post" ->
  wait (panel w) = "400" ->
  let rect := "[10,20][110,70]" in
  let payload :=
    [("action", JStr "short-click");
     ("durationMs",
      JNum (Z.max 1 (num_or (parseInt (str_or (dur (panel w)) "600")) 600)));
     ("tap", JBool true); ("waitAfterMs", JNum 400);
     ("bounds", JStr rect)] in
  let r := mkRequest (str_or (ep (panel w)) ENDPOINT_DEFAULT) "POST"
                     [("Content-Type", "application/json")]
                     (Some (JObj payload)) in
  let w2 := postSelection (fun _ => Scenario.tap_response) rect w in
  postSelection_start rect w
  = (do_fetch r (set_status MSG_SENDING w), Some r) /\
  fetches w2 = (fetches w ++ [r])%list /\
  status (panel w2) = "OK elem=elem_3 center=(60,45)" /\
  includes "elem_3" (status (panel w2)) = true /\
  includes "(60,45)" (status (panel w2)) = true /\
  refreshes w2
  = (refreshes w ++ [(REFRESH_TIMES w, REFRESH_INTERVAL w)])%list.
Proof.
  intros Ha Hc Hw rect payload r w2.
  assert (Hb : build_body (panel w) rect = Some payload).
  { rewrite build_body_valid.
    - now rewrite (base_body_short_click_post _ Ha Hc Hw).
    - rewrite Ha. discriminate.
    - discriminate.
    - reflexivity. }
  pose proof (postSelection_start_sends rect w payload Hb) as Hs.
  cbv zeta in Hs. fold r in Hs.
  split; [exact Hs|].
  subst w2. unfold postSelection. rewrite Hs.
  repeat split.
Qed.

(** C1, an instance: the panel as it is created, with the rectangle in
    its bounds field. *)
Lemma C1_tap_scenario_witness :
  status (panel (postSelection (fun _ => Scenario.tap_response)
                               "[10,20][110,70]" Scenario.tap_world))
  = "OK elem=elem_3 center=(60,45)".
Proof.
  apply (C1_tap_scenario Scenario.tap_world); reflexivity.
Defined.

(** C1 as the specification lists it fails: the request of the scenario
    carries [durationMs] (600) besides the four fields listed, and its
    action reads "short-click"; with an action value "tap", were the
    select to hold it, [durationMs] would be there all the same. *)
Lemma C1_listed_payload_counterexample :
  (exists r b,
      snd (postSelection_start "[10,20][110,70]" Scenario.tap_world) = Some r /\
      body r = Some (JObj b) /\
      lookup "durationMs" b = Some (JNum 600) /\
      lookup "action" b = Some (JStr "short-click") /\
      ~ same_fields b Scenario.listed_tap_payload) /\
  (exists r b,
      snd (postSelection_start "[10,20][110,70]" Scenario.tap_world_named_tap)
      = Some r /\
      body r = Some (JObj b) /\
      lookup "durationMs" b = Some (JNum 600) /\
      ~ same_fields b Scenario.listed_tap_payload).
Proof.
  split; eexists; eexists; (split; [reflexivity|]);
    (split; [reflexivity|]); repeat (split; [reflexivity|]);
    intros H; specialize (H "durationMs"); discriminate H.
Qed.

(** C3 (as the code has it): every request [postSelection] sends carries
    [durationMs], an integer that is 1 at least, whatever the action:
    the short click, the input and the back carry it as the long click
    and the swipe do. *)
Theorem C3_durationMs_always_present (bounds : string) (w w1 : World)
        (r : Request) :
  postSelection_start bounds w = (w1, Some r) ->
  exists d,
    payload_field "durationMs" r = Some (JNum d) /\ 1 <= d /\
    d = Z.max 1 (num_or (parseInt (str_or (dur (panel w)) "600")) 600).
Proof.
  intros H.
  destruct (postSelection_start_request _ _ _ _ H) as [b [Hb [Hr _]]].
  eexists. split; [|split; [|reflexivity]]; [|lia].
  unfold payload_field. rewrite Hr.
  destruct (build_body_some _ _ _ Hb) as [->| ->].
  - apply base_body_durationMs.
  - rewrite lookup_obj_set_other by discriminate.
    apply base_body_durationMs.
Qed.

(** C3, an instance: the back action, which needs no duration, sends
    [durationMs] 600. *)
Lemma C3_durationMs_witness :
  exists d,
    payload_field "durationMs"
      (mkRequest ENDPOINT_DEFAULT "POST"
         [("Content-Type", "application/json")]
         (Some (JObj [("action", JStr "back"); ("durationMs", JNum 600);
                      ("tap", JBool true); ("waitAfterMs", JNum 400)])))
    = Some (JNum d) /\ 1 <= d /\ d = 600.
Proof.
  exact (C3_durationMs_always_present "" Scenario.back_world _ _ eq_refl).
Defined.

(** C3 as the specification has it fails: the short click is neither the
    long click nor the swipe, and its payload carries [durationMs]. *)
Lemma C3_durationMs_counterexample :
  exists r,
    snd (postSelection_start "[10,20][110,70]" Scenario.tap_world) = Some r /\
    payload_field "action" r = Some (JStr "short-click") /\
    payload_field "durationMs" r = Some (JNum 600).
Proof. eexists. repeat split. Qed.

(** C5 (as the code has it): every request for a swipe carries [dx], [dy],
    [direction] and [distance] as the panel holds them ([dx], [dy] and
    [distance] parsed, 0 when empty or no number), whatever the
    direction: with a direction other than [custom] too, [dx] and [dy]
    are sent as they are. *)
Theorem C5_swipe_sends_dx_dy (bounds : string) (w w1 : World) (r : Request) :
  action_of (panel w) = "swipe" ->
  postSelection_start bounds w = (w1, Some r) ->
  payload_field "dx" r
  = Some (JNum (num_or (parseInt (str_or (dx (panel w)) "0")) 0)) /\
  payload_field "dy" r
  = Some (JNum (num_or (parseInt (str_or (dy (panel w)) "0")) 0)) /\
  payload_field "direction" r
  = Some (JStr (toLowerCase (str_or (dir (panel w)) "custom"))) /\
  payload_field "distance" r
  = Some (JNum (num_or (parseInt (str_or (dist (panel w)) "0")) 0)).
Proof.
  intros Ha H.
  destruct (postSelection_start_request _ _ _ _ H) as [b [Hb [Hr _]]].
  destruct (base_body_swipe _ Ha) as [Hx [Hy [Hd Hs]]].
  unfold payload_field. rewrite Hr.
  destruct (build_body_some _ _ _ Hb) as [->| ->].
  - now repeat split.
  - rewrite !lookup_obj_set_other by discriminate. now repeat split.
Qed.

(** C5, an instance: a swipe up of 300 with [dx] 5 and [dy] 7 in the
    panel. *)
Lemma C5_swipe_witness :
  exists r,
    snd (postSelection_start "[10,20][110,70]" (Scenario.swipe_world "5" "7"))
    = Some r /\
    payload_field "dx" r = Some (JNum 5) /\
    payload_field "dy" r = Some (JNum 7).
Proof.
  eexists. split; [reflexivity|].
  destruct (C5_swipe_sends_dx_dy "[10,20][110,70]"
              (Scenario.swipe_world "5" "7") _ _ eq_refl eq_refl)
    as [Hx [Hy _]].
  split; [exact Hx | exact Hy].
Defined.

(** C5 as the specification has it fails: a swipe with the direction
    [up] carries the [dx] 5 and the [dy] 7 of the panel, and its payload
    is not the one the same swipe has with [dx] and [dy] at 0. *)
Lemma C5_swipe_counterexample :
  exists r r0,
    snd (postSelection_start "[10,20][110,70]" (Scenario.swipe_world "5" "7"))
    = Some r /\
    snd (postSelection_start "[10,20][110,70]" (Scenario.swipe_world "0" "0"))
    = Some r0 /\
    payload_field "direction" r = Some (JStr "up") /\
    payload_field "distance" r = Some (JNum 300) /\
    payload_field "dx" r = Some (JNum 5) /\
    payload_field "dy" r = Some (JNum 7) /\
    body r <> body r0.
Proof.
  eexists. eexists. repeat (split; [reflexivity|]). discriminate.
Qed.

Lemma str_or_empty (s : string) : str_or s "" = s.
Proof. now destruct s. Qed.

(** C6: with the action [back] the request carries neither [bounds] nor
    [xpath], whatever the bounds field and the bounds handed over hold,
    and it is sent from each of the three entries -- [postSelection], the
    click on the page with auto-send on, the send button -- without a
    rectangle being asked for. *)
Theorem C6_back_omits_bounds (h : Host) (bounds : string) (w : World) :
  action_of (panel w) = "back" ->
  let r := mkRequest (str_or (ep (panel w)) ENDPOINT_DEFAULT) "POST"
                     [("Content-Type", "application/json")]
                     (Some (JObj (base_body (panel w)))) in
  payload_field "bounds" r = None /\
  payload_field "xpath" r = None /\
  postSelection_start bounds w
  = (do_fetch r (set_status MSG_SENDING w), Some r) /\
  (auto_checked (panel w) = true ->
   sendCurrentSelection h w
   = (do_fetch r (set_status MSG_SENDING w), Some r)) /\
  send_onclick w = (do_fetch r (set_status MSG_SENDING w), Some r).
Proof.
  intros Ha r.
  assert (Hs : forall b, postSelection_start b w
                         = (do_fetch r (set_status MSG_SENDING w), Some r)).
  { intros b. apply postSelection_start_sends. now apply build_body_back. }
  split; [apply base_body_no_bounds|].
  split; [apply base_body_no_xpath|].
  split; [apply Hs|]. split.
  - intros Hauto. unfold sendCurrentSelection.
    rewrite Hauto, Ha. cbn [negb]. apply Hs.
  - unfold send_onclick. rewrite Ha. cbn [String.eqb Ascii.eqb Bool.eqb negb andb].
    apply Hs.
Qed.

(** C6, an instance: back with a rectangle in the bounds field. *)
Lemma C6_back_witness :
  exists r,
    send_onclick Scenario.back_world
    = (do_fetch r (set_status MSG_SENDING Scenario.back_world), Some r) /\
    payload_field "bounds" r = None.
Proof.
  eexists.
  destruct (C6_back_omits_bounds Scenario.host_no_selection ""
              Scenario.back_world eq_refl) as [Hb [_ [_ [_ Hs]]]].
  split; [exact Hs | exact Hb].
Defined.

End BuilderClaims.

(* ================================================================== *)
(** * The claims on the validation of the rectangle *)

Section ValidationClaims.

Lemma first_match_valid (texts : list string) (b : string) :
  first_match texts = Some b -> rect_form b /\ test BOUNDS_RE b = true.
Proof.
  induction texts as [|t texts IH]; simpl; [discriminate|].
  destruct (exec BOUNDS_RE (str_or t "")) as [m|] eqn:E.
  - intros [= <-]. now apply exec_BOUNDS_RE_rect in E.
  - exact IH.
Qed.

(** What [extractBounds] returns passes the test of the pattern. *)
Lemma extractBounds_valid (h : Host) (b : string) :
  extractBounds h = Some b -> b <> "" /\ test BOUNDS_RE b = true.
Proof.
  intros H.
  assert (Ht : test BOUNDS_RE b = true).
  { unfold extractBounds in H.
    destruct (truthy (getSelectedNode h)).
    - destruct (js_or _ _) as [| | | |s| |];
        try (now apply first_match_valid in H).
      destruct (test BOUNDS_RE s) eqn:Es.
      + now injection H as <-.
      + now apply first_match_valid in H.
    - now apply first_match_valid in H. }
  split; [|assumption].
  intros ->. discriminate Ht.
Qed.

(** The send button gives up on a bounds field that fails the pattern. *)
Lemma send_onclick_rejects (w : World) :
  action_of (panel w) <> "back" ->
  test BOUNDS_RE (trim (bd (panel w))) = false ->
  aborted_with MSG_FILL_BOUNDS w (send_onclick w).
Proof.
  intros Ha Ht. unfold send_onclick. rewrite str_or_empty, Ht.
  apply String.eqb_neq in Ha. rewrite Ha. repeat split.
Qed.

(** C4: with an action other than [back] and no valid rectangle, every
    entry gives up before [fetch]: [postSelection] handed bounds that are
    empty or fail the pattern, the click on the page (auto-send on) when
    the page yields no valid rectangle, the send button when the bounds
    field fails the pattern.  No request is sent, and the status line
    tells that valid bounds are missing. *)
Theorem C4_missing_rectangle_aborts (h : Host) (w : World) :
  action_of (panel w) <> "back" ->
  (forall bounds, bounds = "" \/ test BOUNDS_RE bounds = false ->
     aborted_with MSG_MISSING_BOUNDS w (postSelection_start bounds w)) /\
  (auto_checked (panel w) = true ->
   no_valid_rectangle (extractBounds h) ->
   aborted_with MSG_NOT_FOUND w (sendCurrentSelection h w)) /\
  (test BOUNDS_RE (trim (bd (panel w))) = false ->
   aborted_with MSG_FILL_BOUNDS w (send_onclick w)).
Proof.
  intros Ha. split; [|split].
  - intros bounds Hb.
    rewrite postSelection_start_aborts by now apply build_body_invalid.
    repeat split.
  - intros Hauto Hno. unfold sendCurrentSelection.
    rewrite Hauto. cbn [negb].
    apply String.eqb_neq in Ha. rewrite Ha.
    destruct (extractBounds h) as [b|]; [|repeat split].
    destruct Hno as [->|Ht]; [repeat split|].
    rewrite Ht. rewrite orb_true_r. repeat split.
  - now apply send_onclick_rejects.
Qed.

(** C4, an instance: a short click on a page with nothing selected. *)
Lemma C4_missing_rectangle_witness :
  aborted_with MSG_NOT_FOUND Scenario.tap_world
    (sendCurrentSelection Scenario.host_no_selection Scenario.tap_world).
Proof.
  apply (C4_missing_rectangle_aborts Scenario.host_no_selection
           Scenario.tap_world).
  - discriminate.
  - reflexivity.
  - exact I.
Defined.

(** C2 (as the code has it): the pattern is not anchored.  [BOUNDS_RE.test]
    takes a string exactly when the string holds a rectangle
    [[uint,uint][uint,uint]] somewhere in it; the send button, for an
    action other than [back], sends the trimmed bounds field as it is
    when it holds a rectangle, and otherwise gives up before [fetch] with
    the request for valid bounds on the status line. *)
Theorem C2_validation_accepts_containing (w : World) :
  action_of (panel w) <> "back" ->
  let b := trim (bd (panel w)) in
  (forall s, test BOUNDS_RE s = true <-> contains_rect s) /\
  (contains_rect b ->
   exists r, send_onclick w = (do_fetch r (set_status MSG_SENDING w), Some r) /\
             payload_field "bounds" r = Some (JStr b)) /\
  (~ contains_rect b -> aborted_with MSG_FILL_BOUNDS w (send_onclick w)).
Proof.
  intros Ha b. split; [exact test_BOUNDS_RE|]. split.
  - intros Hc. apply test_BOUNDS_RE in Hc.
    assert (Hne : b <> "") by (intros E; rewrite E in Hc; discriminate Hc).
    unfold send_onclick. rewrite str_or_empty. fold b. rewrite Hc.
    rewrite andb_false_r.
    eexists. split.
    + apply postSelection_start_sends. now apply build_body_valid.
    + unfold payload_field. cbn [body]. apply lookup_obj_set_same.
  - intros Hn.
    apply (send_onclick_rejects w Ha).
    fold b. destruct (test BOUNDS_RE b) eqn:E; [|reflexivity].
    apply test_BOUNDS_RE in E. contradiction.
Qed.

(** C2, an instance: a bounds field with no rectangle in it. *)
Lemma C2_validation_witness :
  aborted_with MSG_FILL_BOUNDS
    (Scenario.world_of (Scenario.panel_with "short-click" "[10,20]" "0" "0"
                                            "custom" "0"))
    (send_onclick
       (Scenario.world_of (Scenario.panel_with "short-click" "[10,20]" "0" "0"
                                               "custom" "0"))).
Proof.
  apply (C2_validation_accepts_containing
           (Scenario.world_of (Scenario.panel_with "short-click" "[10,20]"
                                                   "0" "0" "custom" "0"))).
  - discriminate.
  - intros Hc. apply test_BOUNDS_RE in Hc. discriminate Hc.
Defined.

(** C2 as the specification has it fails: [x[10,20][110,70]y] is not of
    the form [[uint,uint][uint,uint]], the pattern takes it, and the send
    button sends it as the bounds. *)
Lemma C2_validation_counterexample :
  ~ rect_form "x[10,20][110,70]y" /\
  test BOUNDS_RE "x[10,20][110,70]y" = true /\
  exists r,
    snd (send_onclick
           (Scenario.world_of
              (Scenario.panel_with "short-click" "x[10,20][110,70]y" "0" "0"
                                   "custom" "0"))) = Some r /\
    payload_field "bounds" r = Some (JStr "x[10,20][110,70]y").
Proof.
  split; [|split; [reflexivity|]].
  - intros H. apply rect_form_starts_with_bracket in H as [s' E].
    discriminate E.
  - eexists. split; reflexivity.
Qed.

End ValidationClaims.

(* ================================================================== *)
(** * The claims on the click listener and on stop *)

Section ListenerClaims.

Lemma path_eqb_refl (p : path) : path_eqb p p = true.
Proof.
  induction p as [|i p IH]; simpl; [reflexivity|].
  now rewrite Nat.eqb_refl.
Qed.

Lemma contains_app (p q : path) : contains p (p ++ q)%list = true.
Proof.
  induction p as [|i p IH]; simpl; [reflexivity|].
  now rewrite Nat.eqb_refl.
Qed.

(** C7: a click whose target lies in the panel, or is the refresh control
    that [findRefreshButton] locates or lies in it, is ignored by
    [shouldIgnoreClick], and the listener leaves the state as it is and
    sends nothing -- for a trusted click as for a synthetic one, with
    whatever the panel and the page hold. *)
Theorem C7_panel_and_refresh_clicks_never_send
        (h : Host) (e : ClickEvent) (w : World) (t : path) :
  target e = Some t ->
  (contains (panelPath h) t = true \/
   exists rbtn, findRefreshButton (dom h) = Some rbtn /\
                (t = rbtn \/ contains rbtn t = true)) ->
  shouldIgnoreClick h e = true /\ clickListener h e w = (w, None).
Proof.
  intros Ht Hin.
  assert (Hi : shouldIgnoreClick h e = true).
  { unfold shouldIgnoreClick. rewrite Ht.
    destruct (contains (panelPath h) t) eqn:Hp; [reflexivity|].
    destruct Hin as [Hc | [rbtn [Hr Hc]]]; [discriminate|].
    rewrite Hr.
    destruct Hc as [->|Hc].
    - now rewrite path_eqb_refl.
    - now rewrite Hc, orb_true_r. }
  split; [exact Hi|].
  unfold clickListener. now rewrite Hi.
Qed.

(** C7, an instance: a trusted click on the icon of the refresh button,
    on a page with a node selected and auto-send on. *)
Lemma C7_refresh_click_witness :
  clickListener (Scenario.host_selected "[10,20][110,70]")
                (mkClick (Some Scenario.refresh_icon_at) true)
                Scenario.tap_world
  = (Scenario.tap_world, None).
Proof.
  apply (C7_panel_and_refresh_clicks_never_send
           (Scenario.host_selected "[10,20][110,70]")
           (mkClick (Some Scenario.refresh_icon_at) true)
           Scenario.tap_world Scenario.refresh_icon_at eq_refl).
  right. exists Scenario.refresh_button_at.
  split; [reflexivity | right; reflexivity].
Defined.

(** The same click on the tree of the page is not ignored: it sends the
    selection. *)
Example click_on_tree_sends :
  exists r,
    snd (clickListener (Scenario.host_selected "[10,20][110,70]")
                       (mkClick (Some [0; 1; 0]%nat) true)
                       Scenario.tap_world) = Some r /\
    payload_field "bounds" r = Some (JStr "[10,20][110,70]").
Proof. eexists. split; reflexivity. Qed.

(** With auto-send off no event of the page but the send and stop buttons
    sends anything, and none turns auto-send on. *)
Lemma step_keeps_auto_off (w : World) (ev : Event) :
  auto_checked (panel w) = false ->
  auto_checked (panel (step w ev)) = false /\
  fetches (step w ev) = fetches w.
Proof.
  intros Hoff. destruct ev as [h e|r|r| | |v|v|v]; cbn [step].
  - unfold clickListener.
    destruct (shouldIgnoreClick h e); [now split|].
    destruct (negb (isTrusted e)); [now split|].
    unfold sendCurrentSelection. rewrite Hoff. now split.
  - unfold postSelection_resume. destruct r as [err|code json]; [now split|].
    destruct (resp_ok code && _ && _); now split.
  - unfold stop_resume. destruct r as [err|code json]; [now split|].
    destruct (resp_ok code && _ && _); now split.
  - now split.
  - unfold saveSel_onclick, saveCfg. destruct (storage w); now split.
  - unfold operator_sets_capMode, capMode_change, saveCfg.
    cbn [storage with_panel]. destruct (storage w); now split.
  - unfold operator_sets_midDelay, midDelay_change, saveCfg.
    cbn [storage with_panel]. destruct (storage w); now split.
  - unfold operator_sets_wait, wait_change, saveCfg.
    cbn [storage with_panel]. destruct (storage w); now split.
Qed.

Lemma steps_keep_auto_off (evs : list Event) :
  forall w, auto_checked (panel w) = false ->
            auto_checked (panel (steps evs w)) = false /\
            fetches (steps evs w) = fetches w.
Proof.
  induction evs as [|ev evs IH]; intros w Hoff; [now split|].
  unfold steps. cbn [fold_left]. fold (steps evs (step w ev)).
  destruct (step_keeps_auto_off w ev Hoff) as [H1 H2].
  destruct (IH _ H1) as [H3 H4]. split; [exact H3 | congruence].
Qed.

(** C10: stop unchecks auto-send first: the state in which the
    final-screenshot request is handed to [fetch] has the flag off
    already (and so has the state left when no request is made).  The
    outcome of the request leaves the flag off, and so does every later
    event of the page other than the operator's own use of the auto-send
    box and of the send and stop buttons: the clicks, trusted or not, the
    outcomes of requests in flight, the other controls.  None of them
    sends a request. *)
Theorem C10_stop_disables_auto_send (h : Host) (w : World) :
  (exists w1,
      auto_checked (panel w1) = false /\ fetches w1 = fetches w /\
      ((exists r, stop_start h w = (do_fetch r w1, Some r) /\
                  method r = "POST" /\ body r = None) \/
       (exists err, stop_start h w = (set_status err w1, None)))) /\
  auto_checked (panel (fst (stop_start h w))) = false /\
  (forall outcome,
      auto_checked (panel (stop_resume outcome (fst (stop_start h w))))
      = false) /\
  (forall evs,
      auto_checked (panel (steps evs (fst (stop_start h w)))) = false /\
      fetches (steps evs (fst (stop_start h w)))
      = fetches (fst (stop_start h w))).
Proof.
  assert (Hoff : auto_checked (panel (fst (stop_start h w))) = false).
  { unfold stop_start.
    destruct (endsWith _ _); [reflexivity|].
    destruct (new_URL h _ _); reflexivity. }
  split; [|split; [exact Hoff|split]].
  - exists (with_panel (panel_auto false) w).
    split; [reflexivity|]. split; [reflexivity|].
    unfold stop_start.
    destruct (endsWith _ _).
    + left. eexists. repeat split.
    + destruct (new_URL h _ _) as [u|err].
      * left. eexists. repeat split.
      * right. eexists. reflexivity.
  - intros outcome.
    apply (step_keeps_auto_off _ (EvStopDone outcome) Hoff).
  - intros evs. now apply steps_keep_auto_off.
Qed.

End ListenerClaims.

(* ================================================================== *)
(** * The claim on the persisted configuration *)

Section ConfigClaims.

(** What [saveCfg] leaves in a storage that was not unreadable. *)
Lemma saveCfg_one (k : string) (v : JsVal) (w : World) :
  storage w <> BadText ->
  exists o, storage (saveCfg [(k, v)] w) = Parsed (JObj (obj_set k v o)) /\
            wf_obj o /\
            (forall o0, storage w = Parsed (JObj o0) -> wf_obj o0 ->
                        forall k', lookup k' o = lookup k' o0).
Proof.
  intros Hs. unfold saveCfg.
  destruct (storage w) as [| |cfg] eqn:E; [|congruence|].
  - exists []. split; [reflexivity|]. split; [apply wf_nil|]. discriminate.
  - exists (assign [] cfg). split; [reflexivity|].
    split; [apply wf_assign, wf_nil|].
    intros o0 [= ->] Hwf k'. now apply lookup_assign_copy.
Qed.

(** The storage after the capture mode and the mid delay have been saved,
    in either order. *)
Lemma saved_mid_75 (w : World) :
  storage w <> BadText ->
  forall saved,
    saved = storage (operator_sets_midDelay "75" (operator_sets_capMode "mid" w))
    \/ saved = storage (operator_sets_capMode "mid" (operator_sets_midDelay "75" w)) ->
    exists o, saved = Parsed (JObj o) /\
              lookup "capMode" o = Some (JStr "mid") /\
              lookup "midDelayMs" o = Some (JNum 75).
Proof.
  intros Hs saved [-> | ->].
  - unfold operator_sets_midDelay, midDelay_change.
    set (w1 := operator_sets_capMode "mid" w).
    assert (H1 : exists o1, storage w1 = Parsed (JObj o1) /\ wf_obj o1 /\
                            lookup "capMode" o1 = Some (JStr "mid")).
    { subst w1. unfold operator_sets_capMode, capMode_change.
      cbn [with_panel panel select_assign].
      destruct (saveCfg_one "capMode" (JStr "mid")
                  (with_panel updateCaptureUI
                     (with_panel (panel_capMode "mid") w)))
        as [o [Ho [Hwf _]]]; [exact Hs|].
      eexists. split; [exact Ho|].
      split; [now apply wf_obj_set | apply lookup_obj_set_same]. }
    destruct H1 as [o1 [Ho1 [Hwf1 Hc1]]].
    destruct (saveCfg_one "midDelayMs" (JNum 75)
                (with_panel (panel_midDelay "75") w1))
      as [o [Ho [Hwf Hcopy]]]; [cbn [storage with_panel]; congruence|].
    eexists. split; [exact Ho|]. split.
    + rewrite lookup_obj_set_other by discriminate.
      rewrite (Hcopy o1 Ho1 Hwf1). exact Hc1.
    + apply lookup_obj_set_same.
  - unfold operator_sets_capMode, capMode_change.
    cbn [with_panel panel select_assign].
    set (w1 := operator_sets_midDelay "75" w).
    assert (H1 : exists o1, storage w1 = Parsed (JObj o1) /\ wf_obj o1 /\
                            lookup "midDelayMs" o1 = Some (JNum 75)).
    { subst w1. unfold operator_sets_midDelay, midDelay_change.
      destruct (saveCfg_one "midDelayMs" (JNum 75)
                  (with_panel (panel_midDelay "75") w))
        as [o [Ho [Hwf _]]]; [exact Hs|].
      eexists. split; [exact Ho|].
      split; [now apply wf_obj_set | apply lookup_obj_set_same]. }
    destruct H1 as [o1 [Ho1 [Hwf1 Hc1]]].
    destruct (saveCfg_one "capMode" (JStr "mid")
                (with_panel updateCaptureUI
                   (with_panel (panel_capMode "mid") w1)))
      as [o [Ho [Hwf Hcopy]]]; [cbn [storage with_panel]; congruence|].
    eexists. split; [exact Ho|]. split.
    + apply lookup_obj_set_same.
    + rewrite lookup_obj_set_other by discriminate.
      rewrite (Hcopy o1 Ho1 Hwf1). exact Hc1.
Qed.

(** What a fresh load makes of a blob that holds the two settings. *)
Lemma load_mid_75 (h : Host) (o : Obj) :
  lookup "capMode" o = Some (JStr "mid") ->
  lookup "midDelayMs" o = Some (JNum 75) ->
  let p := panel (load h (Parsed (JObj o))) in
  midDelay p = "75" /\ capMode p = "mid" /\
  wait_shown p = false /\ waitLabel_shown p = false /\
  midDelay_shown p = true /\ midDelayLabel_shown p = true.
Proof.
  intros Hc Hm p. subst p. unfold load, restoreCfg.
  cbn [get]. rewrite Hc, Hm.
  destruct (truthy _); destruct (lookup "waitAfterMs" o) as [[]|];
    destruct (extractBounds h) as [initBd|];
    try destruct (String.eqb initBd ""); repeat split.
Qed.

(** C8: from a storage that holds no blob or a blob that parses, the
    operator picks the capture mode [mid] and sets the mid delay to 75,
    in either order; a fresh load of the script on what the storage then
    holds shows 75 in the mid-delay field, the mode [mid], the wait-after
    input and its label hidden, the mid-delay input and its label
    shown. *)
Theorem C8_config_round_trip (h : Host) (w : World) :
  storage w <> BadText ->
  forall saved,
    saved = storage (operator_sets_midDelay "75" (operator_sets_capMode "mid" w))
    \/ saved = storage (operator_sets_capMode "mid" (operator_sets_midDelay "75" w)) ->
    let p := panel (load h saved) in
    midDelay p = "75" /\ capMode p = "mid" /\
    wait_shown p = false /\ waitLabel_shown p = false /\
    midDelay_shown p = true /\ midDelayLabel_shown p = true.
Proof.
  intros Hs saved Hsaved.
  destruct (saved_mid_75 w Hs saved Hsaved) as [o [-> [Hc Hm]]].
  now apply load_mid_75.
Qed.

(** C8, an instance: a first run, nothing in the storage yet. *)
Lemma C8_config_round_trip_witness :
  midDelay
    (panel (load Scenario.host_no_selection
              (storage (operator_sets_midDelay "75"
                          (operator_sets_capMode "mid" Scenario.tap_world)))))
  = "75" /\
  wait_shown
    (panel (load Scenario.host_no_selection
              (storage (operator_sets_midDelay "75"
                          (operator_sets_capMode "mid" Scenario.tap_world)))))
  = false.
Proof.
  destruct (C8_config_round_trip Scenario.host_no_selection Scenario.tap_world)
    with (saved := storage (operator_sets_midDelay "75"
                             (operator_sets_capMode "mid" Scenario.tap_world)))
    as [H1 [_ [H2 _]]].
  - discriminate.
  - left. reflexivity.
  - split; [exact H1 | exact H2].
Defined.

(** An unreadable blob defeats the round trip: [saveCfg] gives up, and a
    fresh load shows the defaults. *)
Example unreadable_blob_is_kept :
  let w := set_storage BadText Scenario.tap_world in
  let saved := storage (operator_sets_midDelay "75"
                          (operator_sets_capMode "mid" w)) in
  saved = BadText /\
  midDelay (panel (load Scenario.host_no_selection saved)) = "50" /\
  wait_shown (panel (load Scenario.host_no_selection saved)) = true.
Proof. repeat split. Qed.

End ConfigClaims.

(* ================================================================== *)
(** * The refresh scheduler *)

Section SchedulerClaims.

Import Scheduler.

Variables (times delay : Z) (found : Z -> bool).

(** From a state with a timer armed, [n + 1] ticks are left when
    [n + 1] is the larger of 1 and [times - count]; fuel for them runs
    the timers out. *)
Lemma run_from (n : nat) :
  forall (fuel : nat) (c t0 : Z) (tk ck : list Z),
    Z.max 1 (times - c) = Z.of_nat (S n) ->
    (S n <= fuel)%nat ->
    run fuel times delay found (mkRun c (Some (t0 + delay)) tk ck)
    = mkRun (c + Z.of_nat (S n)) None
            (tk ++ tick_times (S n) delay t0)
            (ck ++ filter found (tick_times (S n) delay t0)).
Proof.
  induction n as [|n IH]; intros fuel c t0 tk ck Hn Hf.
  - destruct fuel as [|fuel]; [lia|].
    cbn [run armed]. unfold clickOnce. cbn [count clicks ticks].
    replace (c + 1 <? times) with false
      by (symmetry; apply Z.ltb_ge; lia).
    replace (c + Z.of_nat 1) with (c + 1) by lia.
    cbn [tick_times filter].
    assert (Hstop : forall r, armed r = None ->
                              run fuel times delay found r = r).
    { intros r Hr. destruct fuel; cbn [run]; [reflexivity | now rewrite Hr]. }
    rewrite Hstop by reflexivity.
    destruct (found (t0 + delay)); [reflexivity|].
    now rewrite app_nil_r.
  - destruct fuel as [|fuel]; [lia|].
    cbn [run armed]. unfold clickOnce. cbn [count clicks ticks].
    replace (c + 1 <? times) with true
      by (symmetry; apply Z.ltb_lt; lia).
    rewrite IH by lia.
    f_equal.
    + lia.
    + rewrite <- app_assoc. reflexivity.
    + cbn [tick_times filter].
      destruct (found (t0 + delay)).
      * rewrite <- app_assoc. reflexivity.
      * reflexivity.
Qed.


(** More fuel changes nothing: the run is over. *)
Theorem schedule_terminates (now : Z) (fuel : nat) :
  (Z.to_nat (Z.max 1 times) <= fuel)%nat ->
  run fuel times delay found (scheduleRefreshClicks delay now)
  = schedule times delay found now.
Proof.
  intros Hf. unfold schedule, scheduleRefreshClicks.
  assert (Hn : exists m, Z.to_nat (Z.max 1 times) = S m).
  { exists (Nat.pred (Z.to_nat (Z.max 1 times))). lia. }
  destruct Hn as [m Hm]. rewrite Hm in *.
  rewrite (run_from m fuel 0 now [] []); [|lia|lia].
  rewrite (run_from m (S m) 0 now [] []); [|lia|lia].
  reflexivity.
Qed.

End SchedulerClaims.

Section SchedulerAtZero.

Import Scheduler.

(** A tick that does not find the control counts, and the later ticks
    go on: three ticks, the control missing at the first. *)
Example control_appears_later :
  schedule 3 500 (fun t => negb (t =? 500)) 0
  = mkRun 3 None [500; 1000; 1500] [1000; 1500].
Proof. reflexivity. Qed.

(** C9, where the code leaves the claim: the operator types [-1] as the
    number of refresh clicks and applies it, which sets [REFRESH_TIMES]
    to 0; [scheduleRefreshClicks(0, delay)] arms its first timer all the
    same, ticks once at [now + delay] and clicks the control when it
    finds it: one click where the claim allows none. *)
Theorem C9_zero_times_ticks_once (delay now : Z) (found : Z -> bool) :
  REFRESH_TIMES (applyR_onclick Scenario.world_times_minus_one) = 0 /\
  schedule 0 delay found now
  = mkRun 1 None [now + delay]
          (if found (now + delay) then [now + delay] else []).
Proof.
  split; [reflexivity|].
  change (schedule 0 delay found now)
    with (run 1 0 delay found (scheduleRefreshClicks delay now)).
  unfold scheduleRefreshClicks.
  rewrite (run_from 0 delay found 0 1 0 now [] []) by (cbn; lia).
  cbn [tick_times filter app]. reflexivity.
Qed.

End SchedulerAtZero.

(* ================================================================== *)
(** * Further properties *)

Section PageFacts.

Lemma chain_in (p : path) :
  forall (e : Element) (here : path) (l : list (path * Element)),
    chain e here p = Some l ->
    forall q el, In (q, el) l ->
      exists pre suf, p = (pre ++ suf)%list /\ q = (here ++ pre)%list /\
                      node_at e pre = Some el.
Proof.
  induction p as [|i p IH]; intros e here l Hl q el Hin; cbn [chain] in Hl.
  - injection Hl as <-. destruct Hin as [[= <- <-]|[]].
    exists [], []. repeat split. now rewrite app_nil_r.
  - destruct (nth_error (children_of e) i) as [k|] eqn:Hk; [|discriminate].
    destruct (chain k (here ++ [i])%list p) as [l'|] eqn:Hl'; [|discriminate].
    injection Hl as <-. destruct Hin as [[= <- <-]|Hin].
    + exists [], (i :: p). repeat split. now rewrite app_nil_r.
    + destruct (IH _ _ _ Hl' _ _ Hin) as [pre [suf [-> [-> Hn]]]].
      exists (i :: pre), suf. rewrite <- app_assoc. cbn [app node_at].
      rewrite Hk. repeat split. exact Hn.
Qed.

Lemma last_match_in (sel : Element -> bool) (l : list (path * Element)) :
  forall q, last_match sel l = Some q ->
            exists el, In (q, el) l /\ sel el = true.
Proof.
  induction l as [|[p e] l IH]; intros q H; cbn [last_match] in H;
    [discriminate|].
  destruct (last_match sel l) as [q'|].
  - injection H as <-. destruct (IH _ eq_refl) as [el [Hin Hs]].
    exists el. split; [now right | assumption].
  - destruct (sel e) eqn:Hs; [|discriminate]. injection H as <-.
    exists e. split; [now left | assumption].
Qed.

(** [t.closest(sel)] is an element that matches and that holds [t]. *)
Theorem closest_spec (sel : Element -> bool) (root : Element) (t q : path) :
  closest sel root t = Some q ->
  contains q t = true /\ exists el, node_at root q = Some el /\ sel el = true.
Proof.
  unfold closest. destruct (chain root [] t) as [l|] eqn:Hl; [|discriminate].
  intros H. destruct (last_match_in _ _ _ H) as [el [Hin Hs]].
  destruct (chain_in _ _ _ _ Hl _ _ Hin) as [pre [suf [-> [-> Hn]]]].
  cbn [app]. split; [apply contains_app | now exists el].
Qed.

(** A refresh control that is located is a [button] of the page. *)
Theorem findRefreshButton_is_button (root : Element) (r : path) :
  findRefreshButton root = Some r ->
  exists el, node_at root r = Some el /\ tag_of el = "button".
Proof.
  unfold findRefreshButton. intros H.
  assert (Hc : exists t, closest (is_tag "button") root t = Some r).
  { destruct (querySelector sel_refresh_icon root) as [icon|]; [now exists icon|].
    destruct (querySelector sel_refresh_any root) as [any|];
      [now exists any | discriminate]. }
  destruct Hc as [t Ht].
  destruct (closest_spec _ _ _ _ Ht) as [_ [el [Hn Hs]]].
  exists el. split; [assumption|]. now apply String.eqb_eq.
Qed.

Lemma findRefreshButton_witness :
  exists el, node_at Scenario.page Scenario.refresh_button_at = Some el /\
             tag_of el = "button".
Proof.
  exact (findRefreshButton_is_button Scenario.page Scenario.refresh_button_at
           eq_refl).
Defined.

Lemma extractBounds_valid_witness :
  "[10,20][110,70]" <> "" /\ test BOUNDS_RE "[10,20][110,70]" = true.
Proof.
  exact (extractBounds_valid (Scenario.host_selected "[10,20][110,70]")
           "[10,20][110,70]" eq_refl).
Defined.

End PageFacts.

Section PanelFacts.

(** The duration input is displayed exactly for the long click and the
    swipe: the display follows the action, the payload does not. *)
Theorem duration_input_shown_iff (p : Panel) :
  dur_shown (updateExtraFields p) = true <->
  toLowerCase (str_or (act p) "tap") = "long-click" \/
  toLowerCase (str_or (act p) "tap") = "swipe".
Proof.
  unfold updateExtraFields. cbn [dur_shown].
  rewrite orb_true_iff, !String.eqb_eq. reflexivity.
Qed.

(** The capture timing is always in the body, one kind of it: the mode
    [mid] sends [midCapture] and [midDelayMs] and no [waitAfterMs], every
    other mode sends [waitAfterMs] alone. *)
Theorem capture_timing_exclusive (p : Panel) :
  (str_or (capMode p) "post" = "mid" ->
   lookup "midCapture" (base_body p) = Some (JBool true) /\
   lookup "midDelayMs" (base_body p)
   = Some (JNum (Z.max 0 (num_or (parseInt (str_or (midDelay p) "50")) 50))) /\
   lookup "waitAfterMs" (base_body p) = None) /\
  (str_or (capMode p) "post" <> "mid" ->
   lookup "midCapture" (base_body p) = None /\
   lookup "midDelayMs" (base_body p) = None /\
   lookup "waitAfterMs" (base_body p)
   = Some (JNum (Z.max 0 (num_or (parseInt (str_or (wait p) "400")) 400)))).
Proof.
  split; intros Hm.
  - unfold base_body. cbv zeta. rewrite Hm.
    cbn [String.eqb Ascii.eqb Bool.eqb].
    destruct (String.eqb (action_of p) "input");
      destruct (String.eqb (action_of p) "swipe");
      cbn -[Z.max num_or parseInt toLowerCase]; repeat split.
  - apply String.eqb_neq in Hm. unfold base_body. cbv zeta. rewrite Hm.
    destruct (String.eqb (action_of p) "input");
      destruct (String.eqb (action_of p) "swipe");
      cbn -[Z.max num_or parseInt toLowerCase]; repeat split.
Qed.

(** An input sends its text, the empty text too, and the empty text is no
    reason to give up. *)
Theorem input_sends_text (bounds : string) (w : World) :
  action_of (panel w) = "input" ->
  bounds <> "" -> test BOUNDS_RE bounds = true ->
  exists r, postSelection_start bounds w
            = (do_fetch r (set_status MSG_SENDING w), Some r) /\
            payload_field "text" r = Some (JStr (text (panel w))) /\
            payload_field "bounds" r = Some (JStr bounds).
Proof.
  intros Ha Hb Ht. eexists. split; [|split].
  - apply postSelection_start_sends. apply build_body_valid; try assumption.
    rewrite Ha. discriminate.
  - unfold payload_field. cbn [body].
    rewrite lookup_obj_set_other by discriminate.
    unfold base_body. cbv zeta. rewrite Ha, str_or_empty.
    destruct (String.eqb (str_or _ _) "mid"); reflexivity.
  - unfold payload_field. cbn [body]. apply lookup_obj_set_same.
Qed.

Lemma input_sends_text_witness :
  exists r,
    postSelection_start "[10,20][110,70]"
      (Scenario.world_of (Scenario.panel_with "input" "" "0" "0" "custom" "0"))
    = (do_fetch r
         (set_status MSG_SENDING
            (Scenario.world_of
               (Scenario.panel_with "input" "" "0" "0" "custom" "0"))),
       Some r) /\
    payload_field "text" r = Some (JStr "") /\
    payload_field "bounds" r = Some (JStr "[10,20][110,70]").
Proof.
  apply (input_sends_text "[10,20][110,70]"
           (Scenario.world_of
              (Scenario.panel_with "input" "" "0" "0" "custom" "0"))).
  - reflexivity.
  - discriminate.
  - reflexivity.
Defined.


End PanelFacts.

Section SchedulerFacts.

Lemma schedule_terminates_witness :
  Scheduler.run 10 3 500 (fun _ => true)
                (Scheduler.scheduleRefreshClicks 500 0)
  = Scheduler.schedule 3 500 (fun _ => true) 0.
Proof.
  apply (schedule_terminates 3 500 (fun _ => true) 0 10). cbn. lia.
Defined.

End SchedulerFacts.

(* ================================================================== *)
(** * The queries on the page *)

Section QueryFacts.

(** Induction on an element with its children. *)
Lemma Element_children_ind (P : Element -> Prop) :
  (forall t c a ks, Forall P ks -> P (Elem t c a ks)) ->
  forall e, P e.
Proof.
  intros H. fix IH 1. intros [t c a ks]. apply H.
  induction ks as [|k ks IHks]; constructor; [apply IH | exact IHks].
Qed.

Lemma chain_defined (p : path) :
  forall (e : Element) (here : path) (x : Element),
    node_at e p = Some x -> exists l, chain e here p = Some l.
Proof.
  induction p as [|i p IH]; intros e here x H; cbn [chain node_at] in *.
  - eauto.
  - destruct (nth_error (children_of e) i) as [k|]; [|discriminate].
    destruct (IH k (here ++ [i])%list x H) as [l ->]. cbn. eauto.
Qed.

Lemma chain_node (p : path) :
  forall (e : Element) (here : path) (l : list (path * Element)),
    chain e here p = Some l -> exists x, node_at e p = Some x.
Proof.
  induction p as [|i p IH]; intros e here l H; cbn [chain node_at] in *.
  - eauto.
  - destruct (nth_error (children_of e) i) as [k|]; [|discriminate].
    destruct (chain k (here ++ [i])%list p) as [l'|] eqn:Hl'; [|discriminate].
    exact (IH _ _ _ Hl').
Qed.

(** On the chain of a node, the last element that matches lies at or below
    every element that matches. *)
Lemma last_match_below (sel : Element -> bool) (p : path) :
  forall (e : Element) (here : path) (l : list (path * Element))
         (pre suf : path) (el : Element),
    chain e here p = Some l ->
    p = (pre ++ suf)%list -> node_at e pre = Some el -> sel el = true ->
    exists pre', last_match sel l = Some (here ++ pre')%list /\
                 contains pre pre' = true.
Proof.
  induction p as [|i p IH]; intros e here l pre suf el Hl Hp Hn Hs;
    cbn [chain] in Hl.
  - injection Hl as <-. symmetry in Hp. apply app_eq_nil in Hp as [-> ->].
    cbn [node_at] in Hn. injection Hn as <-.
    exists []. cbn [last_match]. rewrite Hs, app_nil_r. now split.
  - destruct (nth_error (children_of e) i) as [k|] eqn:Hk; [|discriminate].
    destruct (chain k (here ++ [i])%list p) as [l'|] eqn:Hl'; [|discriminate].
    injection Hl as <-. cbn [last_match].
    destruct pre as [|j pre1].
    + cbn [node_at] in Hn. injection Hn as <-.
      destruct (last_match sel l') as [q|] eqn:Hq.
      * destruct (last_match_in _ _ _ Hq) as [el' [Hin _]].
        destruct (chain_in _ _ _ _ Hl' _ _ Hin) as [pre' [_ [_ [-> _]]]].
        exists (i :: pre')%list. rewrite <- app_assoc. now split.
      * rewrite Hs. exists []. rewrite app_nil_r. now split.
    + cbn [app] in Hp. injection Hp as <- ->.
      cbn [node_at] in Hn. rewrite Hk in Hn.
      destruct (IH k (here ++ [i])%list l' pre1 suf el Hl' eq_refl Hn Hs)
        as [pre' [-> Hc]].
      exists (i :: pre')%list. rewrite <- app_assoc. split; [reflexivity|].
      cbn [contains]. now rewrite Nat.eqb_refl.
Qed.

(** [t.closest(sel)] finds a match whenever [t] or an ancestor of [t]
    matches. *)
Lemma closest_finds (sel : Element -> bool) (root : Element)
      (q suf : path) (x el : Element) :
  node_at root (q ++ suf)%list = Some x ->
  node_at root q = Some el -> sel el = true ->
  exists q', closest sel root (q ++ suf)%list = Some q' /\
             contains q q' = true.
Proof.
  intros Hx Hq Hs. unfold closest.
  destruct (chain_defined _ root [] x Hx) as [l Hl]. rewrite Hl.
  destruct (last_match_below sel _ _ _ _ _ _ _ Hl eq_refl Hq Hs)
    as [pre' [-> Hc]].
  now exists pre'.
Qed.

(** [t.closest(sel)] is the nearest element that matches among [t] and
    its ancestors: it matches, it holds [t], and every other such element
    holds it. *)
Theorem closest_nearest (sel : Element -> bool) (root : Element)
        (t r : path) :
  closest sel root t = Some r ->
  contains r t = true /\
  (exists el, node_at root r = Some el /\ sel el = true) /\
  (forall q suf el,
      t = (q ++ suf)%list -> node_at root q = Some el -> sel el = true ->
      contains q r = true).
Proof.
  intros Hr. destruct (closest_spec _ _ _ _ Hr) as [Hc Hel].
  split; [exact Hc|]. split; [exact Hel|].
  intros q suf el -> Hq Hs.
  assert (Hx : exists x, node_at root (q ++ suf)%list = Some x).
  { unfold closest in Hr.
    destruct (chain root [] (q ++ suf)%list) as [l|] eqn:Hl; [|discriminate].
    exact (chain_node _ _ _ _ Hl). }
  destruct Hx as [x Hx].
  destruct (closest_finds sel root q suf x el Hx Hq Hs) as [q' [Hq' Hcq]].
  rewrite Hr in Hq'. now injection Hq' as <-.
Qed.

End QueryFacts.

Section QueryFacts2.

Lemma closest_nearest_witness :
  contains Scenario.refresh_button_at Scenario.refresh_icon_at = true.
Proof.
  apply (closest_nearest (is_tag "button") Scenario.page
           Scenario.refresh_icon_at Scenario.refresh_button_at eq_refl).
Defined.

Lemma find_first_eq (sel : list Element -> Element -> bool)
      (anc : list Element) (here : path) (e : Element) :
  find_first sel anc here e =
  if sel anc e then Some here
  else find_in_children sel (e :: anc) here 0 (children_of e).
Proof.
  destruct e as [t c a ks]. cbn [find_first children_of].
  destruct (sel anc (Elem t c a ks)); [reflexivity|].
  generalize (Elem t c a ks :: anc) as anc'. intros anc'.
  generalize 0%nat as i.
  induction ks as [|k ks IH]; intros i; cbn [find_in_children];
    [reflexivity|].
  destruct (find_first sel anc' (here ++ [i])%list k); [reflexivity|].
  apply IH.
Qed.

(** What [querySelector] returns is an element of the page that the
    selector takes. *)
Lemma find_first_sound (sel : list Element -> Element -> bool) (e : Element) :
  forall (anc : list Element) (here p : path),
    find_first sel anc here e = Some p ->
    exists pre el anc',
      p = (here ++ pre)%list /\ node_at e pre = Some el /\
      sel anc' el = true.
Proof.
  induction e as [t c a ks IHks] using Element_children_ind.
  intros anc here p H. rewrite find_first_eq in H.
  destruct (sel anc (Elem t c a ks)) eqn:Hs.
  - injection H as <-. exists [], (Elem t c a ks), anc.
    rewrite app_nil_r. now repeat split.
  - cbn [children_of] in H.
    assert (Hgo : forall ks' i anc0,
               (forall n k, nth_error ks' n = Some k ->
                            nth_error ks (i + n) = Some k) ->
               Forall (fun e =>
                         forall anc here p,
                           find_first sel anc here e = Some p ->
                           exists pre el anc',
                             p = (here ++ pre)%list /\
                             node_at e pre = Some el /\ sel anc' el = true) ks' ->
               find_in_children sel anc0 here i ks' = Some p ->
               exists pre el anc',
                 p = (here ++ pre)%list /\
                 node_at (Elem t c a ks) pre = Some el /\ sel anc' el = true).
    { clear H. induction ks' as [|k ks' IH]; intros i anc0 Hnth Hall Hf;
        cbn [find_in_children] in Hf; [discriminate|].
      inversion Hall as [|? ? Hk Hrest]; subst.
      destruct (find_first sel anc0 (here ++ [i])%list k) as [p'|] eqn:Hp'.
      - injection Hf as <-.
        destruct (Hk _ _ _ Hp') as [pre [el [anc' [-> [Hn Hsel]]]]].
        exists (i :: pre)%list, el, anc'. rewrite <- app_assoc.
        split; [reflexivity|]. split; [|assumption].
        cbn [node_at children_of].
        specialize (Hnth 0%nat k eq_refl). rewrite Nat.add_0_r in Hnth.
        now rewrite Hnth.
      - apply (IH (S i) anc0); [|assumption|assumption].
        intros n k' Hn'. specialize (Hnth (S n) k' Hn').
        now rewrite Nat.add_succ_r in Hnth. }
    apply (Hgo ks 0%nat (Elem t c a ks :: anc)); auto.
Qed.

Lemma includes_self (s : string) : includes s s = true.
Proof.
  assert (H : startsWith s s = true).
  { induction s as [|c s IH]; cbn; [reflexivity|].
    now rewrite Ascii.eqb_refl. }
  destruct s; cbn in *; [reflexivity | now rewrite H].
Qed.

Lemma has_class_mentions (c : string) (e : Element) :
  has_class c e = true -> existsb (includes c) (classes_of e) = true.
Proof.
  unfold has_class. rewrite !existsb_exists.
  intros [x [Hin Hx]]. apply String.eqb_eq in Hx. subst x.
  exists c. split; [assumption | apply includes_self].
Qed.

(** The refresh control is located through a refresh icon: a control that
    [findRefreshButton] returns holds an element with [pi-refresh] in its
    classes; so on a page where no element mentions [pi-refresh], no
    control is located. *)
Theorem refresh_control_holds_icon (root : Element) (r : path) :
  findRefreshButton root = Some r ->
  exists t icon,
    contains r t = true /\ node_at root t = Some icon /\
    existsb (includes "pi-refresh") (classes_of icon) = true.
Proof.
  unfold findRefreshButton, querySelector. intros H.
  assert (Hc : exists t icon,
             closest (is_tag "button") root t = Some r /\
             node_at root t = Some icon /\
             existsb (includes "pi-refresh") (classes_of icon) = true).
  { destruct (find_first sel_refresh_icon [] [] root) as [t|] eqn:Ht.
    - destruct (find_first_sound _ _ _ _ _ Ht) as [pre [el [anc' [-> [Hn Hs]]]]].
      exists pre, el. split; [exact H|]. split; [exact Hn|].
      unfold sel_refresh_icon in Hs.
      apply andb_true_iff in Hs as [Hs _].
      apply andb_true_iff in Hs as [_ Hs].
      now apply has_class_mentions.
    - destruct (find_first sel_refresh_any [] [] root) as [t|] eqn:Ht2;
        [|discriminate].
      destruct (find_first_sound _ _ _ _ _ Ht2) as [pre [el [anc' [-> [Hn Hs]]]]].
      exists pre, el. split; [exact H|]. split; [exact Hn|].
      unfold sel_refresh_any in Hs.
      apply orb_true_iff in Hs as [Hs|Hs]; [|exact Hs].
      apply andb_true_iff in Hs as [_ Hs].
      now apply has_class_mentions. }
  destruct Hc as [t [icon [Hcl [Hn Hm]]]].
  destruct (closest_spec _ _ _ _ Hcl) as [Hct _].
  now exists t, icon.
Qed.

Lemma refresh_control_witness :
  exists t icon,
    contains Scenario.refresh_button_at t = true /\
    node_at Scenario.page t = Some icon /\
    existsb (includes "pi-refresh") (classes_of icon) = true.
Proof.
  exact (refresh_control_holds_icon Scenario.page
           Scenario.refresh_button_at eq_refl).
Defined.

(** The third rule of the filter: a click on an element of the page that
    carries the attribute [data-bridge-ignore] or the class
    [bridge-ignore], or that lies inside such an element, is ignored, and
    the listener sends nothing, whatever else holds. *)
Theorem marked_region_click_ignored
        (h : Host) (e : ClickEvent) (w : World)
        (q suf : path) (x el : Element) :
  target e = Some (q ++ suf)%list ->
  node_at (dom h) (q ++ suf)%list = Some x ->
  node_at (dom h) q = Some el ->
  has_attr "data-bridge-ignore" el = true \/
  has_class "bridge-ignore" el = true ->
  shouldIgnoreClick h e = true /\ clickListener h e w = (w, None).
Proof.
  intros Ht Hx Hq Hmark.
  assert (Hi : shouldIgnoreClick h e = true).
  { unfold shouldIgnoreClick. rewrite Ht.
    destruct (contains (panelPath h) (q ++ suf)%list); [reflexivity|].
    destruct (match findRefreshButton (dom h) with
              | Some rbtn => _
              | None => false
              end); [reflexivity|].
    destruct Hmark as [Ha|Hc].
    - destruct (closest_finds _ _ _ _ _ _ Hx Hq Ha) as [q' [-> _]].
      reflexivity.
    - destruct (closest_finds _ _ _ _ _ _ Hx Hq Hc) as [q' [-> _]].
      now destruct (closest (has_attr "data-bridge-ignore") _ _). }
  split; [exact Hi|].
  unfold clickListener. now rewrite Hi.
Qed.

Lemma marked_region_witness :
  clickListener MoreScenarios.host_marked
                (mkClick (Some [0; 1; 0]%nat) true) Scenario.tap_world
  = (Scenario.tap_world, None).
Proof.
  apply (marked_region_click_ignored MoreScenarios.host_marked
           (mkClick (Some [0; 1; 0]%nat) true) Scenario.tap_world
           [0; 1]%nat [0]%nat (Elem "span" [] [] [])
           (Elem "div" ["tree"] ["data-bridge-ignore"]
                 [Elem "span" [] [] []])).
  - reflexivity.
  - reflexivity.
  - reflexivity.
  - left. reflexivity.
Defined.

End QueryFacts2.

(* ================================================================== *)
(** * The selection and the click listener *)

Section SelectionFacts.

(** [s.match(BOUNDS_RE)] takes the leftmost rectangle of [s]: what it
    returns is a rectangle of [s], and no rectangle starts at an earlier
    position of [s]. *)
Theorem match_takes_leftmost_rectangle (s m : string) :
  exec BOUNDS_RE s = Some m ->
  exists pre post,
    s = pre ++ m ++ post /\ rect_form m /\
    forall a b, pre = a ++ b -> b <> "" ->
      ~ exists m' rest, rect_form m' /\ b ++ m ++ post = m' ++ rest.
Proof.
  revert m. induction s as [|c s IH]; intros m H; rewrite exec_eq in H.
  - destruct (match_here BOUNDS_RE "") eqn:E; discriminate.
  - destruct (match_here BOUNDS_RE (String c s)) as [m0|] eqn:E.
    + injection H as <-.
      destruct (match_here_sound _ _ _ E) as [Hl [rest Hr]].
      exists "", rest. split; [exact Hr|].
      split; [now apply lang_BOUNDS_RE|].
      intros a b Hab Hb. destruct a; [|discriminate].
      cbn in Hab. congruence.
    + destruct (IH _ H) as [pre [post [-> [Hrect Hleft]]]].
      exists (String c pre), post. split; [reflexivity|].
      split; [exact Hrect|].
      intros a b Hab Hb [m' [rest [Hm' Heq]]].
      destruct a as [|c' a].
      * cbn in Hab. subst b. cbn in Heq.
        apply lang_BOUNDS_RE in Hm'.
        destruct (match_here_complete _ _ Hm' rest) as [m2 Hm2].
        rewrite <- Heq in Hm2. congruence.
      * cbn in Hab. injection Hab as <- ->.
        apply (Hleft a b eq_refl Hb). now exists m', rest.
Qed.

Lemma match_takes_leftmost_witness :
  exists pre post,
    "bounds [1,2][3,4] and [5,6][7,8]" = pre ++ "[1,2][3,4]" ++ post /\
    rect_form "[1,2][3,4]" /\
    forall a b, pre = a ++ b -> b <> "" ->
      ~ exists m' rest,
          rect_form m' /\ b ++ "[1,2][3,4]" ++ post = m' ++ rest.
Proof.
  exact (match_takes_leftmost_rectangle "bounds [1,2][3,4] and [5,6][7,8]"
           "[1,2][3,4]" eq_refl).
Defined.

(** The boxes of the page are read in document order: [extractBounds]
    takes its rectangle from the first box whose text holds one, and
    finds none exactly when no box holds one. *)
Theorem first_match_document_order (texts : list string) :
  (forall m, first_match texts = Some m ->
     exists before t after,
       texts = (before ++ t :: after)%list /\
       Forall (fun x => test BOUNDS_RE x = false) before /\
       exec BOUNDS_RE t = Some m) /\
  (first_match texts = None <->
   Forall (fun x => test BOUNDS_RE x = false) texts).
Proof.
  induction texts as [|t texts [IH1 IH2]]; cbn [first_match].
  - split; [discriminate|]. split; constructor.
  - rewrite str_or_empty. unfold test at 2.
    destruct (exec BOUNDS_RE t) as [m0|] eqn:E.
    + split.
      * intros m [= <-]. exists [], t, texts. now repeat split.
      * split; [discriminate|]. intros H. inversion H as [|? ? Ht _]; subst.
        unfold test in Ht. now rewrite E in Ht.
    + split.
      * intros m Hm. destruct (IH1 _ Hm) as [before [t' [after [-> [Hb He]]]]].
        exists (t :: before), t', after. split; [reflexivity|].
        split; [|exact He]. constructor; [|exact Hb].
        unfold test. now rewrite E.
      * rewrite IH2. split.
        -- intros H. constructor; [|exact H]. unfold test. now rewrite E.
        -- intros H. now inversion H.
Qed.

(** The selected node decides first.  When [window._selectedNode] is an
    object with a non-empty string as [bounds], that string alone decides:
    it is returned when it passes the pattern, whatever the page shows,
    and when it fails, [attributes.bounds] is not looked at and the boxes
    of the page are read.  [attributes.bounds] is read only when [bounds]
    is missing (or falsy). *)
Theorem extractBounds_node_first (h : Host) (o : Obj) :
  window_selectedNode h = JObj o ->
  (forall b, lookup "bounds" o = Some (JStr b) -> b <> "" ->
     extractBounds h
     = if test BOUNDS_RE b then Some b else first_match (candidateTexts h)) /\
  (forall a b2,
     lookup "bounds" o = None ->
     lookup "attributes" o = Some (JObj a) ->
     lookup "bounds" a = Some (JStr b2) ->
     extractBounds h
     = if test BOUNDS_RE b2 then Some b2 else first_match (candidateTexts h)).
Proof.
  intros Hn.
  assert (Hg : getSelectedNode h = JObj o).
  { unfold getSelectedNode. now rewrite Hn. }
  split.
  - intros b Hb Hne. unfold extractBounds. rewrite Hg. cbn [truthy get].
    rewrite Hb. unfold js_or at 2. cbn [truthy].
    apply String.eqb_neq in Hne. rewrite Hne. cbn [negb].
    unfold js_or. cbn [truthy]. rewrite Hne. cbn [negb].
    now destruct (test BOUNDS_RE b).
  - intros a b2 Hb Ha Hb2. unfold extractBounds. rewrite Hg. cbn [truthy get].
    rewrite Hb, Ha. cbn [js_and truthy get]. rewrite Hb2.
    unfold js_and. cbn [truthy].
    destruct b2 as [|c b2].
    + cbn. reflexivity.
    + cbn [js_or truthy String.eqb negb].
      now destruct (test BOUNDS_RE (String c b2)).
Qed.

Lemma extractBounds_node_first_witness :
  extractBounds
    (mkHost Scenario.page Scenario.panel_at
            (JObj [("bounds", JStr "no rectangle");
                   ("attributes", JObj [("bounds", JStr "[1,2][3,4]")])])
            JUndefined ["[5,6][7,8]"] (fun _ _ => inr "TypeError"))
  = Some "[5,6][7,8]".
Proof.
  apply (proj1 (extractBounds_node_first
           (mkHost Scenario.page Scenario.panel_at
                   (JObj [("bounds", JStr "no rectangle");
                          ("attributes", JObj [("bounds", JStr "[1,2][3,4]")])])
                   JUndefined ["[5,6][7,8]"] (fun _ _ => inr "TypeError"))
           _ eq_refl) "no rectangle" eq_refl).
  discriminate.
Defined.

Lemma extractBounds_test (h : Host) (b : string) :
  extractBounds h = Some b -> b <> "" /\ test BOUNDS_RE b = true.
Proof.
  intros H.
  assert (Ht : test BOUNDS_RE b = true).
  { unfold extractBounds in H.
    destruct (truthy (getSelectedNode h)).
    - destruct (js_or _ _) as [| | | |s| |];
        try (now apply first_match_valid in H).
      destruct (test BOUNDS_RE s) eqn:Es.
      + now injection H as <-.
      + now apply first_match_valid in H.
    - now apply first_match_valid in H. }
  split; [|assumption].
  intros ->. discriminate Ht.
Qed.

(** When the click listener sends.  A click makes a request exactly when
    the filter lets it through, it is trusted, auto-send is on, and the
    action is [back] or the page yields a rectangle.  It then makes one
    request only; for an action other than [back] the request carries the
    rectangle the page yields, and the bounds field of the panel shows
    it. *)
Theorem click_sends_iff (h : Host) (e : ClickEvent) (w : World) :
  ((exists r, snd (clickListener h e w) = Some r) <->
   shouldIgnoreClick h e = false /\ isTrusted e = true /\
   auto_checked (panel w) = true /\
   (action_of (panel w) = "back" \/ exists b, extractBounds h = Some b)) /\
  (forall r, snd (clickListener h e w) = Some r ->
     fetches (fst (clickListener h e w)) = (fetches w ++ [r])%list /\
     (action_of (panel w) <> "back" ->
      exists b, extractBounds h = Some b /\
                payload_field "bounds" r = Some (JStr b) /\
                bd (panel (fst (clickListener h e w))) = b)) /\
  (snd (clickListener h e w) = None ->
   fetches (fst (clickListener h e w)) = fetches w).
Proof.
  unfold clickListener, sendCurrentSelection.
  destruct (shouldIgnoreClick h e);
    [cbn; split; [split; [intros [r H]; discriminate | intros [H _]; discriminate]
                 | split; [discriminate | reflexivity]]|].
  destruct (isTrusted e);
    [|cbn; split; [split; [intros [r H]; discriminate
                          | intros [_ [H _]]; discriminate]
                  | split; [discriminate | reflexivity]]].
  cbn [negb].
  destruct (auto_checked (panel w));
    [|cbn; split; [split; [intros [r H]; discriminate
                          | intros [_ [_ [H _]]]; discriminate]
                  | split; [discriminate | reflexivity]]].
  cbn [negb].
  destruct (String.eqb_spec (action_of (panel w)) "back") as [Ha|Ha].
  - rewrite (postSelection_start_sends "" w _ (build_body_back _ "" Ha)).
    cbn [fst snd]. split; [|split].
    + split; [intros _; repeat split; now left | intros _; eauto].
    + intros r [= <-]. split; [reflexivity | contradiction].
    + discriminate.
  - destruct (extractBounds h) as [b|] eqn:Hb.
    + destruct (extractBounds_test _ _ Hb) as [Hne Ht].
      apply String.eqb_neq in Hne. rewrite Hne, Ht. cbn [orb negb].
      apply String.eqb_neq in Hne.
      assert (Hbuild : build_body (panel (with_panel (panel_bd b) w)) b
                       = Some (obj_set "bounds" (JStr b)
                                 (base_body (panel (with_panel (panel_bd b) w))))).
      { apply build_body_valid; assumption. }
      rewrite (postSelection_start_sends b _ _ Hbuild).
      cbn [fst snd]. split; [|split].
      * split; [intros _; repeat split; right; eauto | intros _; eauto].
      * intros r [= <-]. split; [reflexivity|].
        intros _. exists b. split; [reflexivity|]. split; [|reflexivity].
        unfold payload_field. cbn [body]. apply lookup_obj_set_same.
      * discriminate.
    + cbn [fst snd]. split; [|split].
      * split; [intros [r H]; discriminate|].
        intros [_ [_ [_ [H|[b H]]]]]; [contradiction | discriminate].
      * discriminate.
      * reflexivity.
Qed.

End SelectionFacts.

(* ================================================================== *)
(** * Numbers in the fields, and the configuration across a reload *)

Section NumberFacts.







End NumberFacts.

Section ReloadFacts.









(** A negative mid delay, before and after: 0 is sent while the panel
    lives, 50 once it has been reloaded. *)
Example negative_midDelay_becomes_50 :
  let w := operator_sets_midDelay "-5"
             (operator_sets_capMode "mid" Scenario.tap_world) in
  lookup "midDelayMs" (base_body (panel w)) = Some (JNum 0) /\
  lookup "midDelayMs"
    (base_body (panel (load Scenario.host_no_selection (storage w))))
  = Some (JNum 50).
Proof. split; reflexivity. Qed.



End ReloadFacts.

(* ================================================================== *)
(** * What holds throughout a session *)

Section SessionFacts.

Lemma base_body_action (p : Panel) :
  lookup "action" (base_body p) = Some (JStr (action_of p)).
Proof.
  unfold base_body; cbv zeta;
    repeat match goal with
           | |- context [if ?c then _ else _] => destruct c
           end;
    cbn -[Z.max num_or parseInt toLowerCase]; reflexivity.
Qed.

Lemma base_body_tap (p : Panel) :
  lookup "tap" (base_body p) = Some (JBool true).
Proof.
  unfold base_body; cbv zeta;
    repeat match goal with
           | |- context [if ?c then _ else _] => destruct c
           end;
    cbn -[Z.max num_or parseInt toLowerCase]; reflexivity.
Qed.

Lemma action_of_option (p : Panel) :
  act p = "" \/ In (act p) act_options -> In (action_of p) act_options.
Proof.
  unfold action_of.
  intros [-> | H]; [cbn; tauto|].
  cbn in H. decompose [or] H; try contradiction;
    match goal with E : _ = act p |- _ => rewrite <- E end; cbn; tauto.
Qed.

(** A body the builder gives makes a request as the panel sends them. *)
Lemma built_request_ok (p : Panel) (bounds u : string) (o : Obj)
      (hd : list (string * string)) :
  act p = "" \/ In (act p) act_options ->
  build_body p bounds = Some o ->
  request_ok (mkRequest u "POST" hd (Some (JObj o))).
Proof.
  intros Hact Hb. split; [reflexivity|]. right.
  exists o, (action_of p),
    (Z.max 1 (num_or (parseInt (str_or (dur p) "600")) 600)).
  unfold build_body in Hb.
  destruct (String.eqb_spec (action_of p) "back") as [Ha|Ha].
  - injection Hb as <-. cbn [body].
    split; [reflexivity|]. split; [apply base_body_action|].
    split; [now apply action_of_option|]. split; [apply base_body_tap|].
    split; [apply base_body_durationMs|]. split; [lia|].
    split; [intros _; apply base_body_no_bounds | contradiction].
  - destruct (negb (String.eqb bounds "")) eqn:Hne; [|discriminate].
    destruct (test BOUNDS_RE bounds) eqn:Ht; [|discriminate].
    injection Hb as <-. cbn [body].
    split; [reflexivity|].
    split; [rewrite lookup_obj_set_other by discriminate;
            apply base_body_action|].
    split; [now apply action_of_option|].
    split; [rewrite lookup_obj_set_other by discriminate; apply base_body_tap|].
    split; [rewrite lookup_obj_set_other by discriminate;
            apply base_body_durationMs|].
    split; [lia|].
    split; [contradiction|].
    intros _. exists bounds. split; [apply lookup_obj_set_same | exact Ht].
Qed.

Lemma postSelection_start_invariant (bounds : string) (w : World) :
  panel_invariant w -> panel_invariant (fst (postSelection_start bounds w)).
Proof.
  intros [Ht [Hi [Ha [Hc [Hs [Hf Hr]]]]]].
  destruct (build_body (panel w) bounds) as [o|] eqn:Hb.
  - rewrite (postSelection_start_sends _ _ _ Hb). cbn [fst].
    repeat split; try assumption; try apply Hs.
    cbn [fetches do_fetch]. apply Forall_app. split; [exact Hf|].
    constructor; [|constructor].
    now apply (built_request_ok (panel w) bounds).
  - rewrite (postSelection_start_aborts _ _ Hb). cbn [fst].
    repeat split; try assumption; apply Hs.
Qed.

Lemma resume_invariant (r : FetchResult) (w : World) :
  panel_invariant w ->
  panel_invariant (postSelection_resume r w) /\
  panel_invariant (stop_resume r w).
Proof.
  intros [Ht [Hi [Ha [Hc [Hs [Hf Hr]]]]]].
  assert (Hr' : Forall (fun td => 0 <= fst td /\ 0 <= snd td)
                       (refreshes w ++ [(REFRESH_TIMES w, REFRESH_INTERVAL w)])).
  { apply Forall_app. split; [exact Hr|]. constructor; [now split|constructor]. }
  split.
  - unfold postSelection_resume. destruct r as [err|code json].
    + repeat split; try assumption; apply Hs.
    + destruct (resp_ok code && _ && _);
        repeat split; try assumption; apply Hs.
  - unfold stop_resume. destruct r as [err|code json].
    + repeat split; try assumption; apply Hs.
    + destruct (resp_ok code && _ && _);
        repeat split; try assumption; apply Hs.
Qed.

Lemma saveCfg_invariant (d : Obj) (w : World) :
  panel_invariant w -> panel_invariant (saveCfg d w).
Proof.
  intros H. unfold saveCfg. destruct (storage w); exact H.
Qed.

Lemma select_assign_option (opts : list string) (v : string) :
  select_assign opts v = "" \/ In (select_assign opts v) opts.
Proof.
  unfold select_assign. destruct (existsb (String.eqb v) opts) eqn:E;
    [|now left].
  right. apply existsb_exists in E as [x [Hin Hx]].
  apply String.eqb_eq in Hx. now subst x.
Qed.

Lemma updateCaptureUI_in_sync (p : Panel) :
  capture_in_sync (updateCaptureUI p) /\
  capMode (updateCaptureUI p) = capMode p /\
  act (updateCaptureUI p) = act p.
Proof.
  unfold capture_in_sync, updateCaptureUI.
  cbn [midDelay_shown midDelayLabel_shown wait_shown waitLabel_shown capMode
       act panel_capture_display].
  destruct (capMode p) as [|c s]; [now repeat split|].
  cbn [str_or]. now repeat split.
Qed.

Lemma react_invariant (w : World) (a : Action) :
  panel_invariant w -> panel_invariant (react w a).
Proof.
  intros Hinv. pose proof Hinv as [Ht [Hi [Ha [Hc [Hs [Hf Hr]]]]]].
  destruct a as [h e| |h|r|r| | | |v|v|v|f v|v|v|b]; cbn [react].
  - unfold clickListener.
    destruct (shouldIgnoreClick h e); [exact Hinv|].
    destruct (negb (isTrusted e)); [exact Hinv|].
    unfold sendCurrentSelection.
    destruct (negb (auto_checked (panel w))); [exact Hinv|].
    destruct (String.eqb (action_of (panel w)) "back");
      [now apply postSelection_start_invariant|].
    destruct (extractBounds h) as [b|];
      [|repeat split; try assumption; apply Hs].
    destruct (String.eqb b "" || negb (test BOUNDS_RE b));
      [repeat split; try assumption; apply Hs|].
    apply postSelection_start_invariant.
    repeat split; try assumption; apply Hs.
  - unfold send_onclick.
    destruct (negb (String.eqb (action_of (panel w)) "back") && _);
      [repeat split; try assumption; apply Hs|].
    now apply postSelection_start_invariant.
  - unfold stop_start.
    destruct (endsWith _ _).
    + repeat split; try assumption; try apply Hs.
      cbn [fst fetches do_fetch]. apply Forall_app. split; [exact Hf|].
      constructor; [|constructor]. split; [reflexivity | now left].
    + destruct (new_URL h _ _) as [u|err].
      * repeat split; try assumption; try apply Hs.
        cbn [fst fetches do_fetch]. apply Forall_app. split; [exact Hf|].
        constructor; [|constructor]. split; [reflexivity | now left].
      * repeat split; try assumption; apply Hs.
  - now apply resume_invariant.
  - now apply resume_invariant.
  - unfold applyR_onclick.
    repeat split; try assumption; try apply Hs;
      cbn [REFRESH_TIMES REFRESH_INTERVAL set_status with_panel
           set_refresh_params]; lia.
  - unfold saveSel_onclick.
    pose proof (saveCfg_invariant
                  [("xpathSelector", JStr (trim (str_or (xpsel (panel w)) "")))]
                  w Hinv) as [Ht' [Hi' [Ha' [Hc' [Hs' [Hf' Hr']]]]]].
    repeat split; try assumption; apply Hs'.
  - unfold grab_onclick. cbn. repeat split; try assumption; apply Hs.
  - unfold operator_sets_capMode, capMode_change. apply saveCfg_invariant.
    destruct (updateCaptureUI_in_sync
                (panel_capMode (select_assign capMode_options v) (panel w)))
      as [Hsync [Hcm Hact]].
    split; [exact Ht|]. split; [exact Hi|].
    cbn [panel with_panel fetches refreshes]. rewrite Hcm, Hact.
    split; [exact Ha|].
    split; [apply select_assign_option|].
    split; [exact Hsync|]. now split.
  - unfold operator_sets_midDelay, midDelay_change. apply saveCfg_invariant.
    repeat split; try assumption; apply Hs.
  - unfold operator_sets_wait, wait_change. apply saveCfg_invariant.
    repeat split; try assumption; apply Hs.
  - destruct f; repeat split; try assumption; apply Hs.
  - split; [exact Ht|]. split; [exact Hi|].
    split; [apply select_assign_option|].
    repeat split; try assumption; apply Hs.
  - repeat split; try assumption; apply Hs.
  - repeat split; try assumption; apply Hs.
Qed.

Lemma load_invariant (h : Host) (b : Blob) : panel_invariant (load h b).
Proof.
  unfold load.
  set (p0 := restoreCfg b panel0).
  assert (H0 : (act p0 = "" \/ In (act p0) act_options) /\
               (capMode p0 = "" \/ In (capMode p0) capMode_options)).
  { subst p0. unfold restoreCfg.
    destruct b as [| |cfg]; [cbn; tauto | cbn; tauto |].
    destruct cfg; try (cbn; tauto).
    destruct (truthy _);
      destruct (get (JObj fields) "capMode") as [| | | |m| |];
      destruct (get (JObj fields) "midDelayMs") as [| | |k| | |];
      destruct (get (JObj fields) "waitAfterMs") as [| | |k'| | |];
      cbn [act capMode panel_wait panel_midDelay panel_capMode panel_xpsel
           panel0];
      (split; [right; cbn; tauto|]);
      try (right; cbn; tauto); apply select_assign_option. }
  destruct H0 as [Ha Hc].
  destruct (updateCaptureUI_in_sync p0) as [Hsync [Hcm Hact]].
  split; [cbn; lia|]. split; [cbn; lia|].
  destruct (extractBounds h) as [initBd|];
    [destruct (String.eqb initBd "")|];
    cbn [panel act capMode panel_status panel_bd fetches refreshes];
    rewrite ?Hcm, ?Hact;
    (split; [exact Ha|]); (split; [exact Hc|]);
    (split; [exact Hsync|]); split; constructor.
Qed.

Lemma session_invariant (acts : list Action) :
  forall w, panel_invariant w -> panel_invariant (fold_left react acts w).
Proof.
  induction acts as [|a acts IH]; intros w H; cbn [fold_left]; [exact H|].
  apply IH. now apply react_invariant.
Qed.

(** Every request of a session is as the panel sends them: whatever page,
    storage and sequence of actions, each request handed to [fetch] is a
    POST, and unless it is the bodiless one of stop its payload names an
    action of the select, carries [tap] and a duration of 1 at least, and
    carries bounds that pass the pattern -- or, for [back], no bounds. *)
Theorem session_requests_well_formed (h : Host) (b : Blob)
        (acts : list Action) :
  Forall request_ok (fetches (session h b acts)).
Proof.
  exact (proj1 (proj2 (proj2 (proj2 (proj2 (proj2
           (session_invariant acts _ (load_invariant h b)))))))).
Qed.

(** The refresh parameters are never negative, and the scheduler is never
    called with a negative count or delay, whatever the operator types in
    the two refresh fields. *)
Theorem session_refresh_never_negative (h : Host) (b : Blob)
        (acts : list Action) :
  0 <= REFRESH_TIMES (session h b acts) /\
  0 <= REFRESH_INTERVAL (session h b acts) /\
  Forall (fun td => 0 <= fst td /\ 0 <= snd td)
         (refreshes (session h b acts)).
Proof.
  pose proof (session_invariant acts _ (load_invariant h b))
    as [Ht [Hi [_ [_ [_ [_ Hr]]]]]].
  now repeat split.
Qed.

(** The capture-timing inputs always follow the capture mode: throughout a
    session the mid-delay input and its label are displayed exactly when
    the mode is [mid], the wait-after input and its label exactly when it
    is not, and the mode is an option of its select (or none). *)
Theorem session_capture_in_sync (h : Host) (b : Blob) (acts : list Action) :
  capture_in_sync (panel (session h b acts)) /\
  (capMode (panel (session h b acts)) = "" \/
   In (capMode (panel (session h b acts))) capMode_options).
Proof.
  pose proof (session_invariant acts _ (load_invariant h b))
    as [_ [_ [_ [Hc [Hs _]]]]].
  now split.
Qed.

End SessionFacts.

Section SessionFacts2.

Lemma react_storage (w : World) (a : Action) :
  storage (react w a) = BadText <-> storage w = BadText.
Proof.
  assert (Hsave : forall d w0,
             storage (saveCfg d w0) = BadText <-> storage w0 = BadText).
  { intros d w0. unfold saveCfg.
    destruct (storage w0) eqn:E; cbn [storage set_storage];
      rewrite ?E; split; congruence. }
  destruct a as [h e| |h|r|r| | | |v|v|v|f v|v|v|b]; cbn [react];
    try reflexivity.
  - unfold clickListener.
    destruct (shouldIgnoreClick h e); [reflexivity|].
    destruct (negb (isTrusted e)); [reflexivity|].
    unfold sendCurrentSelection.
    destruct (negb (auto_checked (panel w))); [reflexivity|].
    destruct (String.eqb (action_of (panel w)) "back").
    + unfold postSelection_start. destruct (build_body _ _); reflexivity.
    + destruct (extractBounds h) as [b|]; [|reflexivity].
      destruct (String.eqb b "" || negb (test BOUNDS_RE b)); [reflexivity|].
      unfold postSelection_start. destruct (build_body _ _); reflexivity.
  - unfold send_onclick.
    destruct (negb (String.eqb (action_of (panel w)) "back") && _);
      [reflexivity|].
    unfold postSelection_start. destruct (build_body _ _); reflexivity.
  - unfold stop_start. destruct (endsWith _ _); [reflexivity|].
    destruct (new_URL h _ _); reflexivity.
  - unfold postSelection_resume. destruct r as [err|code json]; [reflexivity|].
    destruct (resp_ok code && _ && _); reflexivity.
  - unfold stop_resume. destruct r as [err|code json]; [reflexivity|].
    destruct (resp_ok code && _ && _); reflexivity.
  - unfold saveSel_onclick. cbn [storage set_status with_panel].
    apply Hsave.
  - unfold operator_sets_capMode, capMode_change. rewrite Hsave. reflexivity.
  - unfold operator_sets_midDelay, midDelay_change. rewrite Hsave. reflexivity.
  - unfold operator_sets_wait, wait_change. rewrite Hsave. reflexivity.
Qed.

(** An unreadable blob is never repaired.  Throughout a session the
    storage holds text that does not parse exactly when it held such text
    at the start: no control of the panel overwrites it, so no setting is
    ever saved again, and a readable storage never turns unreadable. *)
Theorem session_storage_readability (h : Host) (b : Blob)
        (acts : list Action) :
  storage (session h b acts) = BadText <-> b = BadText.
Proof.
  unfold session.
  assert (H : forall w, storage (fold_left react acts w) = BadText
                        <-> storage w = BadText).
  { induction acts as [|a acts IH]; intros w; cbn [fold_left];
      [reflexivity|].
    rewrite IH. apply react_storage. }
  rewrite H. reflexivity.
Qed.

(** Who sends, and how much.  Only a click on the page, the send button
    and stop hand a request to [fetch], one at most each time; every other
    action leaves the requests as they are, and none ever removes one. *)
Theorem react_sends_at_most_one (w : World) (a : Action) :
  match a with
  | AClick _ _ | ASend | AStop _ =>
      fetches (react w a) = fetches w \/
      exists r, fetches (react w a) = (fetches w ++ [r])%list
  | _ => fetches (react w a) = fetches w
  end.
Proof.
  assert (Hpost : forall b w0,
             fetches (fst (postSelection_start b w0)) = fetches w0 \/
             exists r, fetches (fst (postSelection_start b w0))
                       = (fetches w0 ++ [r])%list).
  { intros b w0. unfold postSelection_start.
    destruct (build_body _ _); [right; eexists; reflexivity | now left]. }
  assert (Hsave : forall d w0, fetches (saveCfg d w0) = fetches w0).
  { intros d w0. unfold saveCfg. now destruct (storage w0). }
  destruct a as [h e| |h|r|r| | | |v|v|v|f v|v|v|b]; cbn [react];
    try reflexivity.
  - unfold clickListener.
    destruct (shouldIgnoreClick h e); [now left|].
    destruct (negb (isTrusted e)); [now left|].
    unfold sendCurrentSelection.
    destruct (negb (auto_checked (panel w))); [now left|].
    destruct (String.eqb (action_of (panel w)) "back"); [apply Hpost|].
    destruct (extractBounds h) as [b|]; [|now left].
    destruct (String.eqb b "" || negb (test BOUNDS_RE b)); [now left|].
    apply (Hpost b (with_panel (panel_bd b) w)).
  - unfold send_onclick.
    destruct (negb (String.eqb (action_of (panel w)) "back") && _);
      [now left | apply Hpost].
  - unfold stop_start. destruct (endsWith _ _);
      [right; eexists; reflexivity|].
    destruct (new_URL h _ _); [right; eexists; reflexivity | now left].
  - unfold postSelection_resume. destruct r as [err|code json]; [reflexivity|].
    destruct (resp_ok code && _ && _); reflexivity.
  - unfold stop_resume. destruct r as [err|code json]; [reflexivity|].
    destruct (resp_ok code && _ && _); reflexivity.
  - unfold saveSel_onclick. cbn [fetches set_status with_panel]. apply Hsave.
  - unfold operator_sets_capMode, capMode_change. now rewrite Hsave.
  - unfold operator_sets_midDelay, midDelay_change. now rewrite Hsave.
  - unfold operator_sets_wait, wait_change. now rewrite Hsave.
Qed.

End SessionFacts2.

(* ================================================================== *)
(** * Stop, and the fields an action shows *)

Section StopFacts.

Lemma startsWith_refl (s : string) : startsWith s s = true.
Proof.
  induction s as [|c s IH]; cbn; [reflexivity | now rewrite Ascii.eqb_refl].
Qed.

Lemma startsWith_append (s t : string) : startsWith s (s ++ t) = true.
Proof.
  induction s as [|c s IH]; cbn; [reflexivity | now rewrite Ascii.eqb_refl].
Qed.

Lemma includes_cons (sub : string) (c : ascii) (s : string) :
  includes sub s = true -> includes sub (String c s) = true.
Proof.
  intros H. cbn [includes]. rewrite H. apply orb_true_r.
Qed.

Lemma endsWith_includes (suf s : string) :
  endsWith suf s = true -> includes suf s = true.
Proof.
  induction s as [|c s IH]; cbn [endsWith includes]; intros H.
  - rewrite orb_false_r in *. apply String.eqb_eq in H. now subst suf.
  - apply orb_true_iff in H as [H|H].
    + apply String.eqb_eq in H. subst suf. now rewrite startsWith_refl.
    + rewrite (IH H). apply orb_true_r.
Qed.

Lemma includes_eq (sub s : string) :
  includes sub s =
  startsWith sub s || match s with
                      | EmptyString => false
                      | String _ s' => includes sub s'
                      end.
Proof. destruct s; reflexivity. Qed.

Lemma replace_eq (pat rep s : string) :
  replace pat rep s =
  if startsWith pat s then rep ++ drop (String.length pat) s
  else match s with
       | EmptyString => EmptyString
       | String c s' => String c (replace pat rep s')
       end.
Proof. destruct s; reflexivity. Qed.

Lemma replace_includes (pat rep s : string) :
  includes pat s = true -> includes rep (replace pat rep s) = true.
Proof.
  induction s as [|c s IH]; intros H; rewrite replace_eq;
    rewrite includes_eq in H.
  - rewrite orb_false_r in H. rewrite H.
    rewrite includes_eq, startsWith_append. reflexivity.
  - destruct (startsWith pat (String c s)) eqn:E.
    + rewrite includes_eq, startsWith_append. reflexivity.
    + cbn [orb] in H. apply includes_cons. now apply IH.
Qed.

(** Where stop posts.  When the endpoint ends with [/bridge/capture_tap]
    -- the default endpoint does --, stop always hands its request to
    [fetch]: a POST without a body, to the endpoint with the first
    [/bridge/capture_tap] in it replaced, an address that holds
    [/bridge/final_screenshot]; [new URL] is not consulted. *)
Theorem stop_posts_to_final_screenshot (h : Host) (w : World) :
  endsWith "/bridge/capture_tap" (str_or (ep (panel w)) ENDPOINT_DEFAULT)
  = true ->
  exists r,
    stop_start h w = (do_fetch r (with_panel (panel_auto false) w), Some r) /\
    method r = "POST" /\ body r = None /\
    url r = replace "/bridge/capture_tap" "/bridge/final_screenshot"
                    (str_or (ep (panel w)) ENDPOINT_DEFAULT) /\
    includes "/bridge/final_screenshot" (url r) = true.
Proof.
  intros He. unfold stop_start.
  cbn [panel with_panel ep panel_auto]. rewrite He.
  eexists. split; [reflexivity|]. cbn [method body url].
  repeat split.
  apply replace_includes. now apply endsWith_includes.
Qed.

Lemma stop_posts_witness :
  exists r,
    stop_start Scenario.host_no_selection Scenario.tap_world
    = (do_fetch r (with_panel (panel_auto false) Scenario.tap_world), Some r) /\
    method r = "POST" /\ body r = None /\
    url r = "http://127.0.0.1:8001/bridge/final_screenshot" /\
    includes "/bridge/final_screenshot" (url r) = true.
Proof.
  exact (stop_posts_to_final_screenshot Scenario.host_no_selection
           Scenario.tap_world eq_refl).
Defined.

(** The replacement is of the first occurrence, not of the ending: an
    endpoint that holds the path twice keeps it at its end. *)
Example stop_replaces_first_occurrence :
  replace "/bridge/capture_tap" "/bridge/final_screenshot"
          "http://h/bridge/capture_tap/x/bridge/capture_tap"
  = "http://h/bridge/final_screenshot/x/bridge/capture_tap".
Proof. reflexivity. Qed.

Lemma lower_action (p : Panel) :
  toLowerCase (str_or (act p) "tap") = action_of p \/
  (act p = "" /\ action_of p = "short-click" /\
   toLowerCase (str_or (act p) "tap") = "tap").
Proof.
  unfold action_of. destruct (act p); [right; now repeat split | now left].
Qed.

(** The fields an action shows are the fields it sends, the duration
    apart.  The text input is displayed exactly when the payload carries
    [text]; the four swipe inputs exactly when it carries [dx], [dy],
    [direction] and [distance]; the bounds input is disabled exactly when
    the builder asks for no bounds; the mid-delay input is displayed
    exactly when the payload carries [midDelayMs] and the wait-after input
    exactly when it carries [waitAfterMs]. *)
Theorem shown_fields_are_sent_fields (p : Panel) :
  let ui := updateExtraFields p in
  let cap := updateCaptureUI p in
  (text_shown ui = true <-> lookup "text" (base_body p) <> None) /\
  (dx_shown ui = true <-> lookup "dx" (base_body p) <> None) /\
  (dy_shown ui = true <-> lookup "dy" (base_body p) <> None) /\
  (dir_shown ui = true <-> lookup "direction" (base_body p) <> None) /\
  (dist_shown ui = true <-> lookup "distance" (base_body p) <> None) /\
  (bd_disabled ui = true <-> build_body p "" = Some (base_body p)) /\
  (midDelay_shown cap = true <-> lookup "midDelayMs" (base_body p) <> None) /\
  (wait_shown cap = true <-> lookup "waitAfterMs" (base_body p) <> None).
Proof.
  cbv zeta. unfold updateExtraFields, updateCaptureUI, build_body.
  cbn [text_shown dx_shown dy_shown dir_shown dist_shown bd_disabled
       midDelay_shown wait_shown panel_capture_display].
  cbn [String.eqb negb andb].
  assert (Hl : forall a,
             a <> "tap" -> a <> "short-click" ->
             String.eqb (toLowerCase (str_or (act p) "tap")) a
             = String.eqb (action_of p) a).
  { intros a H1 H2. destruct (lower_action p) as [->|[_ [-> ->]]];
      [reflexivity|].
    apply String.eqb_neq in H1, H2.
    rewrite String.eqb_sym, H1. now rewrite String.eqb_sym, H2. }
  rewrite !Hl by discriminate.
  unfold base_body. cbv zeta.
  destruct (String.eqb_spec (action_of p) "input") as [Hi|Hi];
    destruct (String.eqb_spec (action_of p) "swipe") as [Hs|Hs];
    destruct (String.eqb_spec (action_of p) "back") as [Hb|Hb];
    try congruence;
    destruct (String.eqb (str_or (capMode p) "post") "mid");
    cbn -[Z.max num_or parseInt toLowerCase];
    repeat split; intros; try discriminate; try congruence.
Qed.

End StopFacts.

(* ================================================================== *)
(** * The console script *)

Section AutosendFacts.

Import Autosend.

(** What [pickBounds] gives: nothing, or a string -- either [node.bounds],
    which then passes the pattern, or [node.attributes.bounds], which is
    taken as it is. *)
Theorem pickBounds_cases (node : JsVal) :
  pickBounds node = JNull \/
  exists b, pickBounds node = JStr b /\
            ((get node "bounds" = JStr b /\ test BOUNDS_RE b = true) \/
             get (get node "attributes") "bounds" = JStr b).
Proof.
  unfold pickBounds. destruct (truthy node); [|now left]. cbn [negb].
  assert (Hattr :
            (if truthy (get node "attributes")
                && typeof_string (get (get node "attributes") "bounds")
             then get (get node "attributes") "bounds" else JNull) = JNull \/
            exists b,
              (if truthy (get node "attributes")
                  && typeof_string (get (get node "attributes") "bounds")
               then get (get node "attributes") "bounds" else JNull) = JStr b /\
              get (get node "attributes") "bounds" = JStr b).
  { destruct (truthy (get node "attributes")); cbn [andb]; [|now left].
    destruct (get (get node "attributes") "bounds") as [| | | |b2| |];
      cbn [typeof_string]; try (now left).
    right. now exists b2. }
  assert (Hfall :
            (if truthy (get node "attributes")
                && typeof_string (get (get node "attributes") "bounds")
             then get (get node "attributes") "bounds" else JNull) = JNull \/
            exists b,
              (if truthy (get node "attributes")
                  && typeof_string (get (get node "attributes") "bounds")
               then get (get node "attributes") "bounds" else JNull) = JStr b /\
              ((get node "bounds" = JStr b /\ test BOUNDS_RE b = true) \/
               get (get node "attributes") "bounds" = JStr b)).
  { destruct Hattr as [H|[b [H1 H2]]]; [now left|].
    right. exists b. split; [exact H1 | now right]. }
  destruct (get node "bounds") as [| | | |b| |] eqn:Eb;
    cbn [typeof_string andb]; try exact Hfall.
  destruct (test BOUNDS_RE b) eqn:Et; [|exact Hfall].
  right. exists b. split; [reflexivity | left; now split].
Qed.

(** The console script does not test [attributes.bounds].  For a selected
    node without [bounds] of its own, whatever non-empty string
    [attributes.bounds] holds -- a rectangle or not -- is sent as the
    bounds of the request. *)
Theorem autosend_sends_attribute_bounds_untested
        (a : AutoHost) (o at_ : Obj) (s : string) :
  window_selectedNode (page a) = JObj o ->
  lookup "bounds" o = None ->
  lookup "attributes" o = Some (JObj at_) ->
  lookup "bounds" at_ = Some (JStr s) ->
  s <> "" ->
  exists r, snd (autosend_start a) = Some r /\
            payload_field "bounds" r = Some (JStr s) /\
            payload_field "tap" r = Some (JBool true) /\
            payload_field "node" r = Some (JObj o).
Proof.
  intros Hn Hb Ha Hs Hne.
  assert (Hnode : find_node a = JObj o).
  { unfold find_node, getSelectedNode. now rewrite Hn. }
  assert (Hp : pickBounds (JObj o) = JStr s).
  { unfold pickBounds. cbn [truthy negb get]. rewrite Hb, Ha.
    cbn [typeof_string andb truthy get]. now rewrite Hs. }
  unfold autosend_start. rewrite Hnode. cbn [truthy negb]. rewrite Hp.
  cbn [truthy]. apply String.eqb_neq in Hne. rewrite Hne. cbn [negb andb].
  eexists. split; [reflexivity|]. repeat split.
Qed.

Lemma autosend_untested_witness :
  exists r,
    snd (autosend_start
           (mkAutoHost
              (mkHost Scenario.page Scenario.panel_at
                      (JObj [("attributes", JObj [("bounds", JStr "anywhere")])])
                      JUndefined [] (fun _ _ => inr "TypeError"))
              None None [])) = Some r /\
    payload_field "bounds" r = Some (JStr "anywhere") /\
    payload_field "tap" r = Some (JBool true) /\
    payload_field "node" r
    = Some (JObj [("attributes", JObj [("bounds", JStr "anywhere")])]).
Proof.
  apply (autosend_sends_attribute_bounds_untested
           (mkAutoHost
              (mkHost Scenario.page Scenario.panel_at
                      (JObj [("attributes", JObj [("bounds", JStr "anywhere")])])
                      JUndefined [] (fun _ _ => inr "TypeError"))
              None None [])
           _ [("bounds", JStr "anywhere")] "anywhere" eq_refl eq_refl eq_refl
           eq_refl).
  discriminate.
Defined.

Lemma startsWith_trans_prefix (a b s : string) :
  startsWith a b = true -> startsWith b s = true -> startsWith a s = true.
Proof.
  revert b s. induction a as [|c a IH]; intros b s Hab Hbs; [reflexivity|].
  destruct b as [|c1 b]; [discriminate|].
  destruct s as [|c2 s]; [discriminate|].
  cbn in *. apply andb_true_iff in Hab as [H1 H2].
  apply andb_true_iff in Hbs as [H3 H4].
  apply Ascii.eqb_eq in H1, H3. subst.
  rewrite Ascii.eqb_refl. cbn. now apply (IH b s).
Qed.

(** What reads as an XPath.  Of the tests of [isXPathText] three decide: a
    non-empty string reads as an XPath exactly when, trimmed, it starts
    with [/] or with [./] or holds [/hierarchy]; the alternatives [//] and
    [.//] add nothing. *)
Theorem isXPathText_iff (s : string) :
  isXPathText s = true <->
  s <> "" /\
  (startsWith "/" (trim s) = true \/ startsWith "./" (trim s) = true \/
   includes "/hierarchy" (trim s) = true).
Proof.
  unfold isXPathText. destruct s as [|c s].
  - split; [discriminate | intros [H _]; congruence].
  - set (v := trim (String c s)).
    assert (H1 : startsWith ".//" v = true -> startsWith "./" v = true).
    { now apply startsWith_trans_prefix. }
    assert (H2 : startsWith "//" v = true -> startsWith "/" v = true).
    { now apply startsWith_trans_prefix. }
    rewrite !orb_true_iff. split.
    + intros H. split; [discriminate|]. tauto.
    + intros [_ H]. tauto.
Qed.

(** When the console script schedules the refresh.  It calls
    [scheduleRefreshClicks] with its defaults, 3 clicks 500 ms apart,
    exactly when the response has a status of the 2xx range and a JSON
    body with a truthy [ok]; a rejected request, a body that is no JSON
    and a [null] body under a 2xx status are all logged as a network
    error, and schedule nothing. *)
Theorem autosend_refresh_iff (r : FetchResult) :
  (snd (autosend_resume r) = Some (3, 500) <->
   exists code data,
     r = Responded code (Some data) /\ resp_ok code = true /\
     truthy (get data "ok") = true) /\
  (snd (autosend_resume r) = Some (3, 500) \/ snd (autosend_resume r) = None) /\
  (forall err, autosend_resume (Rejected err) = ([LogNetworkError], None)) /\
  (forall code, autosend_resume (Responded code None)
                = ([LogNetworkError], None)) /\
  (forall code, resp_ok code = true ->
                autosend_resume (Responded code (Some JNull))
                = ([LogNetworkError], None)).
Proof.
  split; [|split; [|split; [|split]]].
  - split.
    + unfold autosend_resume. destruct r as [err|code [data|]];
        try discriminate.
      destruct (resp_ok code) eqn:Ec; cbn [negb]; [|discriminate].
      destruct data; try discriminate;
        match goal with
        | |- context [truthy (get ?d "ok")] =>
            destruct (truthy (get d "ok")) eqn:Eo; cbn [negb];
            [intros _; exists code, d; now repeat split | discriminate]
        end.
    + intros [code [data [-> [Hc Ho]]]]. unfold autosend_resume.
      rewrite Hc. cbn [negb].
      destruct data; try discriminate Ho; now rewrite Ho.
  - unfold autosend_resume. destruct r as [err|code [data|]];
      try (now right).
    destruct (negb (resp_ok code)); [now right|].
    destruct data; try (now right);
      match goal with
      | |- context [truthy (get ?d "ok")] =>
          destruct (negb (truthy (get d "ok"))); [now right | now left]
      end.
  - reflexivity.
  - reflexivity.
  - intros code Hc. unfold autosend_resume. now rewrite Hc.
Qed.

(** When the console script sends.  It sends exactly when it settles on a
    truthy node and on bounds or an XPath for it; it then sends one POST
    to the bridge base followed by [/bridge/capture_tap], with the four
    fields [bounds], [xpath], [node] and [tap]; otherwise it logs one
    warning and sends nothing. *)
Theorem autosend_sends_iff (a : AutoHost) :
  let node := find_node a in
  let base := match BRIDGE_BASE a with
              | Some s => str_or s BRIDGE_DEFAULT
              | None => BRIDGE_DEFAULT
              end in
  if truthy node && (truthy (pickBounds node) || truthy (find_xpath a node))
  then exists r,
      snd (autosend_start a) = Some r /\
      url r = base ++ "/bridge/capture_tap" /\ method r = "POST" /\
      body r = Some (JObj [("bounds", pickBounds node);
                           ("xpath", find_xpath a node);
                           ("node", node); ("tap", JBool true)])
  else snd (autosend_start a) = None /\
       (fst (autosend_start a) = [WarnNoNode] \/
        fst (autosend_start a) = [WarnNoAddress]).
Proof.
  cbv zeta. unfold autosend_start.
  destruct (truthy (find_node a)); cbn [negb andb];
    [|split; [reflexivity | now left]].
  destruct (truthy (pickBounds (find_node a))); cbn [negb andb orb];
    [eexists; now repeat split|].
  destruct (truthy (find_xpath a (find_node a))); cbn [negb];
    [eexists; now repeat split|].
  split; [reflexivity | now right].
Qed.

End AutosendFacts.

Section PatternSummary.

(** [BOUNDS_RE.test(s)] holds exactly when [s] holds, somewhere in it, a
    string of the form [[uint,uint][uint,uint]] with one digit or more in
    each place: the pattern is not anchored. *)
Theorem BOUNDS_RE_test_iff_contains (s : string) :
  test BOUNDS_RE s = true <->
  exists pre x1 y1 x2 y2 post,
    is_uint x1 /\ is_uint y1 /\ is_uint x2 /\ is_uint y2 /\
    s = pre ++ ("[" ++ x1 ++ "," ++ y1 ++ "][" ++ x2 ++ "," ++ y2 ++ "]")
            ++ post.
Proof.
  rewrite test_spec. split.
  - intros [pre [m [post [-> Hl]]]]. apply lang_BOUNDS_RE in Hl.
    destruct Hl as [x1 [y1 [x2 [y2 [H1 [H2 [H3 [H4 ->]]]]]]]].
    now exists pre, x1, y1, x2, y2, post.
  - intros [pre [x1 [y1 [x2 [y2 [post [H1 [H2 [H3 [H4 ->]]]]]]]]]].
    eexists pre, _, post. split; [reflexivity|].
    apply lang_BOUNDS_RE. now exists x1, y1, x2, y2.
Qed.

End PatternSummary.
